(** * Global configuration of the accelerator: model and verification

    Shallow embedding of
    [source/packages/@aws-accelerator/config/lib/global-config.ts]:
    the schema registry [GlobalConfigTypes], the default-valued classes
    ([ControlTowerConfig] ... [GlobalConfig]), the [GlobalConfig]
    constructor with its cross-field validation, and the two loaders
    [load] and [loadFromString].

    Conventions.
    - A TypeScript class or interface type is a record; a field of type
      [T | undefined] (or declared with [t.optional]) is an [option].
    - A JavaScript [number] is modelled by [Z]: the code never computes
      with the numbers it carries, it only stores them and tests them
      for being defined.
    - A JavaScript exception is a value of type [exn]; code that may
      throw returns a [result]. *)

From Stdlib Require Import String Ascii List Bool ZArith Arith Lia.
From Stdlib Require Import DecimalString.
Import ListNotations.

Local Open Scope list_scope.
Local Open Scope string_scope.

Set Warnings "-register-all".

(* ===================================================================== *)
(** ** Exceptions and results *)
(* ===================================================================== *)

(** The four kinds of failure a load can meet.  [JsError] is the plain
    [Error] object thrown by the constructor; the other three come
    from the collaborators ([fs], [js-yaml], [t.parse]) and carry the
    text their [toString] renders. *)
Inductive exn : Type :=
| JsError (message : string)
| SourceUnavailable (text : string)
| DeserializationFailure (text : string)
| StructuralViolation (text : string).

(** [`${e}`]: [Error.prototype.toString] prints name, colon, message. *)
Definition exn_toString (e : exn) : string :=
  match e with
  | JsError message => "Error: " ++ message
  | SourceUnavailable text => text
  | DeserializationFailure text => text
  | StructuralViolation text => text
  end.

Inductive result (A : Type) : Type :=
| Ok (a : A)
| Throw (e : exn).

Arguments Ok {A} a.
Arguments Throw {A} e.

Definition bind {A B : Type} (r : result A) (k : A -> result B) : result B :=
  match r with
  | Ok a => k a
  | Throw e => Throw e
  end.

Notation "'let*' x ':=' r 'in' k" := (bind r (fun x => k))
  (at level 10, x name, r at level 100, k at level 200).

Definition is_ok {A : Type} (r : result A) : bool :=
  match r with Ok _ => true | Throw _ => false end.

(* ===================================================================== *)
(** ** Strings as the code uses them *)
(* ===================================================================== *)

(** [`${n}`] for a non-negative integer such as [errors.length]. *)
Definition string_of_nat (n : nat) : string :=
  NilEmpty.string_of_uint (Nat.to_uint n).

(** [errors.join(sep)]. *)
Fixpoint join (sep : string) (xs : list string) : string :=
  match xs with
  | [] => ""
  | [x] => x
  | x :: rest => x ++ sep ++ join sep rest
  end.

(** [hay.includes(needle)] on strings. *)
Fixpoint str_includes (needle hay : string) : bool :=
  String.prefix needle hay ||
  match hay with
  | EmptyString => false
  | String _ hay' => str_includes needle hay'
  end.

(** [xs.includes(x)] on arrays of strings. *)
Definition includes (xs : list string) (x : string) : bool :=
  existsb (String.eqb x) xs.

(* ===================================================================== *)
(** ** Default-valued model: the configuration classes *)
(* ===================================================================== *)

Definition Region : Type := string.

Record ControlTowerConfig : Type := mkControlTowerConfig {
  ct_enable : bool
}.

Record CloudtrailConfig : Type := mkCloudtrailConfig {
  trail_enable : bool;
  organizationTrail : bool
}.

Record SessionManagerConfig : Type := mkSessionManagerConfig {
  sendToCloudWatchLogs : bool;
  sendToS3 : bool;
  excludeRegions : option (list Region);
  excludeAccounts : option (list string)
}.

Record LoggingConfig : Type := mkLoggingConfig {
  account : string;
  cloudtrail : CloudtrailConfig;
  sessionManager : SessionManagerConfig
}.

Record IdentityPerimeterConfig : Type := mkIdentityPerimeterConfig {
  ip_enable : bool
}.

Record ResourcePerimeterConfig : Type := mkResourcePerimeterConfig {
  rp_enable : bool
}.

Record NetworkPerimeterConfig : Type := mkNetworkPerimeterConfig {
  np_enable : bool
}.

Record DataProtectionConfig : Type := mkDataProtectionConfig {
  dp_enable : bool;
  identityPerimeter : IdentityPerimeterConfig;
  resourcePerimeter : ResourcePerimeterConfig;
  networkPerimeter : NetworkPerimeterConfig
}.

Record CostAndUsageReportConfig : Type := mkCostAndUsageReportConfig {
  additionalSchemaElements : option (list string);
  compression : string;
  format : string;
  reportName : string;
  s3Prefix : string;
  cur_timeUnit : string;
  additionalArtifacts : option (list string);
  refreshClosedReports : bool;
  reportVersioning : string
}.

Record NotificationConfig : Type := mkNotificationConfig {
  notificationType : string;
  thresholdType : string;
  comparisonOperator : string;
  threshold : option Z
}.

Record BudgetReportConfig : Type := mkBudgetReportConfig {
  address : option string;
  amount : Z;
  budgetName : string;
  budget_timeUnit : string;
  budgetType : string;
  includeUpfront : option bool;
  includeTax : option bool;
  includeSupport : option bool;
  includeOtherSubscription : option bool;
  includeSubscription : option bool;
  includeRecurring : option bool;
  includeDiscount : option bool;
  includeRefund : option bool;
  includeCredit : option bool;
  useAmortized : option bool;
  useBlended : option bool;
  subscriptionType : string;
  unit_ : option string;
  notifications : option (list NotificationConfig)
}.

Record ReportConfig : Type := mkReportConfig {
  costAndUsageReport : option CostAndUsageReportConfig;
  budgets : option BudgetReportConfig
}.

(** The field initialisers of each class ([new C()]). *)

Definition new_ControlTowerConfig : ControlTowerConfig :=
  {| ct_enable := true |}.

Definition new_CloudtrailConfig : CloudtrailConfig :=
  {| trail_enable := false; organizationTrail := false |}.

Definition new_SessionManagerConfig : SessionManagerConfig :=
  {| sendToCloudWatchLogs := false;
     sendToS3 := false;
     excludeRegions := Some [];
     excludeAccounts := Some [] |}.

Definition new_LoggingConfig : LoggingConfig :=
  {| account := "LogArchive";
     cloudtrail := new_CloudtrailConfig;
     sessionManager := new_SessionManagerConfig |}.

Definition new_IdentityPerimeterConfig : IdentityPerimeterConfig :=
  {| ip_enable := false |}.

Definition new_ResourcePerimeterConfig : ResourcePerimeterConfig :=
  {| rp_enable := false |}.

Definition new_NetworkPerimeterConfig : NetworkPerimeterConfig :=
  {| np_enable := false |}.

Definition new_DataProtectionConfig : DataProtectionConfig :=
  {| dp_enable := false;
     identityPerimeter := new_IdentityPerimeterConfig;
     resourcePerimeter := new_ResourcePerimeterConfig;
     networkPerimeter := new_NetworkPerimeterConfig |}.

Definition new_CostAndUsageReportConfig : CostAndUsageReportConfig :=
  {| additionalSchemaElements := Some [""];
     compression := "";
     format := "";
     reportName := "";
     s3Prefix := "";
     cur_timeUnit := "";
     additionalArtifacts := None;
     refreshClosedReports := true;
     reportVersioning := "" |}.

Definition new_BudgetReportConfig : BudgetReportConfig :=
  {| address := Some "";
     amount := 2000;
     budgetName := "";
     budget_timeUnit := "";
     budgetType := "";
     includeUpfront := Some true;
     includeTax := Some true;
     includeSupport := Some true;
     includeOtherSubscription := Some true;
     includeSubscription := Some true;
     includeRecurring := Some true;
     includeDiscount := Some true;
     includeRefund := Some false;
     includeCredit := Some false;
     useAmortized := Some false;
     useBlended := Some false;
     subscriptionType := "";
     unit_ := Some "";
     notifications :=
       Some [ {| notificationType := "";
                 thresholdType := "";
                 comparisonOperator := "";
                 threshold := Some 90%Z |} ] |}.

Definition new_ReportConfig : ReportConfig :=
  {| costAndUsageReport := Some new_CostAndUsageReportConfig;
     budgets := Some new_BudgetReportConfig |}.

(* ===================================================================== *)
(** ** The root class [GlobalConfig] *)
(* ===================================================================== *)

(** [t.TypeOf<typeof GlobalConfigTypes.globalConfig>]: what [t.parse]
    returns and what the constructor takes as [values].  Fields the
    schema declares with [t.optional] may be absent. *)
Record GlobalConfigValues : Type := mkGlobalConfigValues {
  v_homeRegion : string;
  v_enabledRegions : list Region;
  v_managementAccountAccessRole : string;
  v_cloudwatchLogRetentionInDays : Z;
  v_controlTower : ControlTowerConfig;
  v_logging : LoggingConfig;
  v_dataProtection : option DataProtectionConfig;
  v_reports : option ReportConfig
}.

(** The constructor's first parameter, [props: { homeRegion: string }]. *)
Record Props : Type := mkProps {
  p_homeRegion : string
}.

(** A constructed [GlobalConfig]. *)
Record GlobalConfig : Type := mkGlobalConfig {
  homeRegion : string;
  enabledRegions : list Region;
  managementAccountAccessRole : string;
  cloudwatchLogRetentionInDays : Z;
  controlTower : ControlTowerConfig;
  logging : LoggingConfig;
  dataProtection : option DataProtectionConfig;
  reports : option ReportConfig
}.

(** [this] while the constructor runs: [homeRegion] and
    [enabledRegions] are declared without an initialiser, so they are
    undefined until something assigns them. *)
Record Instance : Type := mkInstance {
  this_homeRegion : option string;
  this_enabledRegions : option (list Region);
  this_managementAccountAccessRole : string;
  this_cloudwatchLogRetentionInDays : Z;
  this_controlTower : ControlTowerConfig;
  this_logging : LoggingConfig;
  this_dataProtection : option DataProtectionConfig;
  this_reports : option ReportConfig
}.

Definition FILENAME : string := "global-config.yaml".

(** The field initialisers of [GlobalConfig]. *)
Definition field_initialisers : Instance :=
  {| this_homeRegion := None;
     this_enabledRegions := None;
     this_managementAccountAccessRole := "AWSControlTowerExecution";
     this_cloudwatchLogRetentionInDays := 365;
     this_controlTower := new_ControlTowerConfig;
     this_logging := new_LoggingConfig;
     this_dataProtection := None;
     this_reports := None |}.

(** [Object.assign(this, values)]: every own property of [values] is
    copied onto [this], nested objects by reference (no deep merge);
    a property [values] does not have leaves [this] as it was. *)
Definition Object_assign (this : Instance) (values : GlobalConfigValues)
  : Instance :=
  {| this_homeRegion := Some (v_homeRegion values);
     this_enabledRegions := Some (v_enabledRegions values);
     this_managementAccountAccessRole := v_managementAccountAccessRole values;
     this_cloudwatchLogRetentionInDays := v_cloudwatchLogRetentionInDays values;
     this_controlTower := v_controlTower values;
     this_logging := v_logging values;
     this_dataProtection :=
       match v_dataProtection values with
       | Some d => Some d
       | None => this_dataProtection this
       end;
     this_reports :=
       match v_reports values with
       | Some r => Some r
       | None => this_reports this
       end |}.

(** [this.homeRegion = props.homeRegion;
     this.enabledRegions = [props.homeRegion as Region];]
    After these two assignments both fields are definitely assigned,
    whatever they held before. *)
Definition assign_regions (this : Instance) (props : Props) : GlobalConfig :=
  {| homeRegion := p_homeRegion props;
     enabledRegions := [p_homeRegion props];
     managementAccountAccessRole := this_managementAccountAccessRole this;
     cloudwatchLogRetentionInDays := this_cloudwatchLogRetentionInDays this;
     controlTower := this_controlTower this;
     logging := this_logging this;
     dataProtection := this_dataProtection this;
     reports := this_reports this |}.

Definition GOV_HOME_REGION_ERROR : string :=
  "The region us-gov-west-1 must be the home region.".

Definition US_EAST_1_ERROR : string :=
  "The region us-east-1 must be included in the list of enabled regions".

(** [x !== undefined] for an optional chain [values?.field]. *)
Definition defined {A : Type} (x : option A) : bool :=
  match x with Some _ => true | None => false end.

(** The validation block of the constructor: the list [errors] as it
    stands when the block is left. *)
Definition semantic_errors (values : option GlobalConfigValues) : list string :=
  let errors : list string := [] in
  if defined (option_map v_homeRegion values)
     && defined (option_map v_cloudwatchLogRetentionInDays values)
  then
    match values with
    | Some v =>
        if (v_homeRegion v =? "us-gov-west-1")
           || (v_homeRegion v =? "us-gov-east-1")
        then
          if negb (v_homeRegion v =? "us-gov-west-1")
          then errors ++ [GOV_HOME_REGION_ERROR]
          else errors
        else
          if negb (v_homeRegion v =? "us-east-1")
             && negb (includes (v_enabledRegions v) "us-east-1")
          then errors ++ [US_EAST_1_ERROR]
          else errors
    | None => errors
    end
  else errors.

(** The message of the error the constructor throws:
    [`${GlobalConfig.FILENAME} has ${errors.length} issues:
      ${errors.join(' ')}`] (one line in the source). *)
Definition issues_message (errors : list string) : string :=
  FILENAME ++ " has " ++ string_of_nat (length errors) ++ " issues: "
  ++ join " " errors.

(** [constructor(props, values?)] *)
Definition new_GlobalConfig (props : Props) (values : option GlobalConfigValues)
  : result GlobalConfig :=
  let this := field_initialisers in
  let this :=
    match values with
    | Some v => Object_assign this v
    | None => this
    end in
  let this := assign_regions this props in
  let errors := semantic_errors values in
  if negb (length errors =? 0)%nat
  then Throw (JsError (issues_message errors))
  else Ok this.

(* ===================================================================== *)
(** ** The loaders *)
(* ===================================================================== *)

(** A [values] object passed where [props] is expected: TypeScript
    accepts it structurally, and the constructor reads nothing but
    [homeRegion] from [props]. *)
Definition as_props (values : GlobalConfigValues) : Props :=
  {| p_homeRegion := v_homeRegion values |}.

(** What the program wrote with [console.log], oldest line first. *)
Definition Console : Type := list string.

(** The first line [loadFromString] logs when it catches an error. *)
Definition DIAGNOSTIC : string :=
  "[global-config] Error parsing input, global config undefined".

(** The modules the loaders import: [path.join],
    [fs.readFileSync(_, 'utf8')], [yaml.load] and
    [t.parse(GlobalConfigTypes.globalConfig, _)]. They are collaborators
    outside this file; each call either returns or throws. [Generic] is
    the type of the trees [yaml.load] returns. *)
Record Imports (Generic : Type) : Type := mkImports {
  path_join : string -> string -> string;
  readFileSync : string -> result string;
  yaml_load : string -> result Generic;
  t_parse : Generic -> result GlobalConfigValues
}.

Arguments path_join {Generic} _ _ _.
Arguments readFileSync {Generic} _ _.
Arguments yaml_load {Generic} _ _.
Arguments t_parse {Generic} _ _.

(** [static load(dir: string): GlobalConfig] *)
Definition load {Generic : Type} (io : Imports Generic) (dir : string)
  : result GlobalConfig :=
  let* buffer := readFileSync io (path_join io dir FILENAME) in
  let* tree := yaml_load io buffer in
  let* values := t_parse io tree in
  let homeRegion := v_homeRegion values in
  new_GlobalConfig {| p_homeRegion := homeRegion |} (Some values).

(** The body of the [try] block of [loadFromString]. *)
Definition loadFromString_try {Generic : Type} (io : Imports Generic)
  (content : string) : result GlobalConfig :=
  let* tree := yaml_load io content in
  let* values := t_parse io tree in
  new_GlobalConfig (as_props values) None.

(** [static loadFromString(content: string): GlobalConfig | undefined],
    together with the lines it logs. *)
Definition loadFromString {Generic : Type} (io : Imports Generic)
  (content : string) : option GlobalConfig * Console :=
  match loadFromString_try io content with
  | Ok config => (Some config, [])
  | Throw e => (None, [ DIAGNOSTIC; exn_toString e ])
  end.

(* ===================================================================== *)
(** ** Generic values and the type descriptor library *)
(* ===================================================================== *)

(** The untyped tree a YAML or JSON document deserialises to. A key
    that a mapping does not have is how an undefined property shows. *)
Inductive Value : Type :=
| VNull
| VBool (b : bool)
| VNum (n : Z)
| VStr (s : string)
| VList (items : list Value)
| VMap (entries : list (string * Value)).

(** The descriptors [global-config.ts] builds its schemas from:
    [t.boolean], [t.number], [t.string], [t.nonEmptyString], [t.region],
    [t.enums(name, values)], [t.optional(_)], [t.array(_)] and
    [t.interface({...})]. *)
Inductive Descriptor : Type :=
| TBoolean
| TNumber
| TString
| TNonEmptyString
| TRegion
| TEnums (name : string) (allowed : list string)
| TOptional (inner : Descriptor)
| TArray (inner : Descriptor)
| TInterface (fields : list (string * Descriptor)).

(** One structural violation: where, what was expected, what kind of
    value was found. *)
Record Violation : Type := mkViolation {
  viol_path : list string;
  viol_expected : string;
  viol_actual : string
}.

Definition kind_of (v : option Value) : string :=
  match v with
  | None => "undefined"
  | Some VNull => "null"
  | Some (VBool _) => "boolean"
  | Some (VNum _) => "number"
  | Some (VStr _) => "string"
  | Some (VList _) => "array"
  | Some (VMap _) => "object"
  end.

(** [obj[key]]: the first entry under that key, if any. *)
Fixpoint lookup (key : string) (entries : list (string * Value))
  : option Value :=
  match entries with
  | [] => None
  | (k, v) :: rest => if k =? key then Some v else lookup key rest
  end.

(** The elements of an array paired with their indices. *)
Definition indexed {A : Type} (xs : list A) : list (nat * A) :=
  combine (seq 0 (length xs)) xs.

Section Validation.

(** The fixed set of supported region identifiers, declared in
    [common-types.ts] next to [t.region]. *)
Variable regions : list Region.

Definition mismatch (path : list string) (expected : string)
  (v : option Value) : list Violation :=
  [ {| viol_path := path;
       viol_expected := expected;
       viol_actual := kind_of v |} ].

(** Modelled from the spec: the [validate] operation of the type
    descriptor library ([common-types.ts] is not part of the analysed
    source).  Section 4.1: scalars succeed iff the runtime kind
    matches; a non-empty string also rejects the empty string; a
    region must be a member of the supported set; an enum value a
    member of the allowed values; [Optional] succeeds on an absent or
    null value and otherwise delegates; [Array] wants a list and
    checks every element, collecting the violations per index;
    [Interface] wants a mapping, checks every declared field under
    its key, ignores unknown keys, and a missing required field is a
    violation at that field. All violations are collected. *)
Fixpoint validate (d : Descriptor) (path : list string) (v : option Value)
  {struct d} : list Violation :=
  match d with
  | TBoolean =>
      match v with
      | Some (VBool _) => []
      | _ => mismatch path "boolean" v
      end
  | TNumber =>
      match v with
      | Some (VNum _) => []
      | _ => mismatch path "number" v
      end
  | TString =>
      match v with
      | Some (VStr _) => []
      | _ => mismatch path "string" v
      end
  | TNonEmptyString =>
      match v with
      | Some (VStr s) =>
          if s =? "" then mismatch path "non-empty string" v else []
      | _ => mismatch path "non-empty string" v
      end
  | TRegion =>
      match v with
      | Some (VStr s) =>
          if includes regions s then [] else mismatch path "region" v
      | _ => mismatch path "region" v
      end
  | TEnums name allowed =>
      match v with
      | Some (VStr s) =>
          if includes allowed s then [] else mismatch path name v
      | _ => mismatch path name v
      end
  | TOptional inner =>
      match v with
      | None | Some VNull => []
      | _ => validate inner path v
      end
  | TArray inner =>
      match v with
      | Some (VList items) =>
          concat
            (map (fun ix =>
                    validate inner (path ++ [string_of_nat (fst ix)])
                      (Some (snd ix)))
               (indexed items))
      | _ => mismatch path "array" v
      end
  | TInterface fields =>
      match v with
      | Some (VMap entries) =>
          (fix each (fs : list (string * Descriptor)) : list Violation :=
             match fs with
             | [] => []
             | (key, dk) :: rest =>
                 (validate dk (path ++ [key]) (lookup key entries)
                  ++ each rest)%list
             end) fields
      | _ => mismatch path "object" v
      end
  end.

End Validation.

(* ===================================================================== *)
(** ** The schema registry *)
(* ===================================================================== *)

Module GlobalConfigTypes.

Definition controlTowerConfig : Descriptor :=
  TInterface [ ("enable", TBoolean) ].

Definition cloudtrailConfig : Descriptor :=
  TInterface [ ("enable", TBoolean); ("organizationTrail", TBoolean) ].

Definition sessionManagerConfig : Descriptor :=
  TInterface
    [ ("sendToCloudWatchLogs", TBoolean);
      ("sendToS3", TBoolean);
      ("excludeRegions", TOptional (TArray TRegion));
      ("excludeAccounts", TOptional (TArray TString)) ].

Definition loggingConfig : Descriptor :=
  TInterface
    [ ("account", TNonEmptyString);
      ("cloudtrail", cloudtrailConfig);
      ("sessionManager", sessionManagerConfig) ].

Definition identityPerimeterConfig : Descriptor :=
  TInterface [ ("enable", TBoolean) ].

Definition resourcePerimeterConfig : Descriptor :=
  TInterface [ ("enable", TBoolean) ].

Definition networkPerimeterConfig : Descriptor :=
  TInterface [ ("enable", TBoolean) ].

Definition dataProtectionConfig : Descriptor :=
  TInterface
    [ ("enable", TBoolean);
      ("identityPerimeter", identityPerimeterConfig);
      ("resourcePerimeter", resourcePerimeterConfig);
      ("networkPerimeter", networkPerimeterConfig) ].

Definition artifactTypeEnum : Descriptor :=
  TEnums "ArtifactType" [ "REDSHIFT"; "QUICKSIGHT"; "ATHENA" ].

Definition costAndUsageReportConfig : Descriptor :=
  TInterface
    [ ("additionalSchemaElements", TOptional (TArray TNonEmptyString));
      ("compression", TEnums "CompressionType" [ "ZIP"; "GZIP"; "Parquet" ]);
      ("format", TEnums "FormatType" [ "textORcsv"; "Parquet" ]);
      ("reportName", TNonEmptyString);
      ("s3Prefix", TNonEmptyString);
      ("timeUnit",
        TEnums "TimeCoverageType" [ "HOURLY"; "DAILY"; "MONTHLY" ]);
      ("additionalArtifacts", TOptional (TArray artifactTypeEnum));
      ("refreshClosedReports", TBoolean);
      ("reportVersioning",
        TEnums "VersioningType" [ "CREATE_NEW_REPORT"; "OVERWRITE_REPORT" ]) ].

Definition notificationConfig : Descriptor :=
  TInterface
    [ ("notificationType",
        TEnums "NotificationType" [ "ACTUAL"; "FORECASTED" ]);
      ("thresholdType",
        TEnums "ThresholdType" [ "PERCENTAGE"; "ABSOLUTE_VALUE" ]);
      ("comparisonOperator",
        TEnums "ComparisonType" [ "GREATER_THAN"; "LESS_THAN"; "EQUAL_TO" ]);
      ("threshold", TOptional TNumber) ].

Definition budgetsConfig : Descriptor :=
  TInterface
    [ ("amount", TNumber);
      ("budgetName", TNonEmptyString);
      ("budgetType",
        TEnums "NotificationType"
          [ "USAGE"; "COST"; "RI_UTILIZATION"; "RI_COVERAGE";
            "SAVINGS_PLANS_UTILIZATION"; "SAVINGS_PLANS_COVERAGE" ]);
      ("timeUnit",
        TEnums "TimeUnitType" [ "DAILY"; "MONTHLY"; "QUARTERLY"; "ANNUALLY" ]);
      ("address", TOptional TNonEmptyString);
      ("includeUpfront", TOptional TBoolean);
      ("includeTax", TOptional TBoolean);
      ("includeSupport", TOptional TBoolean);
      ("includeSubscription", TOptional TBoolean);
      ("includeRecurring", TOptional TBoolean);
      ("includeOtherSubscription", TOptional TBoolean);
      ("includeCredit", TOptional TBoolean);
      ("includeDiscount", TOptional TBoolean);
      ("includeRefund", TOptional TBoolean);
      ("useAmortized", TOptional TBoolean);
      ("useBlended", TOptional TBoolean);
      ("notifications", TOptional (TArray notificationConfig));
      ("subscriptionType", TEnums "SubscriptionType" [ "EMAIL"; "SNS" ]);
      ("unit", TOptional TNonEmptyString) ].

Definition reportConfig : Descriptor :=
  TInterface
    [ ("costAndUsageReport", TOptional costAndUsageReportConfig);
      ("budgets", TOptional budgetsConfig) ].

Definition globalConfig : Descriptor :=
  TInterface
    [ ("homeRegion", TNonEmptyString);
      ("enabledRegions", TArray TRegion);
      ("managementAccountAccessRole", TNonEmptyString);
      ("cloudwatchLogRetentionInDays", TNumber);
      ("controlTower", controlTowerConfig);
      ("logging", loggingConfig);
      ("dataProtection", TOptional dataProtectionConfig);
      ("reports", TOptional reportConfig) ].

End GlobalConfigTypes.

(* ===================================================================== *)
(** ** A configuration object seen as a generic value *)
(* ===================================================================== *)

(** Re-validating an object reads its properties by name. A property
    whose value is undefined reads the same as one that is not there,
    so it gets no entry. *)

Definition optional_entry {A : Type} (key : string) (f : A -> Value)
  (x : option A) : list (string * Value) :=
  match x with
  | Some a => [ (key, f a) ]
  | None => []
  end.

Definition VStrings (xs : list string) : Value := VList (map VStr xs).

Definition Value_of_ControlTowerConfig (c : ControlTowerConfig) : Value :=
  VMap [ ("enable", VBool (ct_enable c)) ].

Definition Value_of_CloudtrailConfig (c : CloudtrailConfig) : Value :=
  VMap [ ("enable", VBool (trail_enable c));
         ("organizationTrail", VBool (organizationTrail c)) ].

Definition Value_of_SessionManagerConfig (c : SessionManagerConfig) : Value :=
  VMap ([ ("sendToCloudWatchLogs", VBool (sendToCloudWatchLogs c));
          ("sendToS3", VBool (sendToS3 c)) ]
        ++ optional_entry "excludeRegions" VStrings (excludeRegions c)
        ++ optional_entry "excludeAccounts" VStrings (excludeAccounts c)).

Definition Value_of_LoggingConfig (c : LoggingConfig) : Value :=
  VMap [ ("account", VStr (account c));
         ("cloudtrail", Value_of_CloudtrailConfig (cloudtrail c));
         ("sessionManager", Value_of_SessionManagerConfig (sessionManager c)) ].

Definition Value_of_DataProtectionConfig (c : DataProtectionConfig) : Value :=
  VMap [ ("enable", VBool (dp_enable c));
         ("identityPerimeter",
           VMap [ ("enable", VBool (ip_enable (identityPerimeter c))) ]);
         ("resourcePerimeter",
           VMap [ ("enable", VBool (rp_enable (resourcePerimeter c))) ]);
         ("networkPerimeter",
           VMap [ ("enable", VBool (np_enable (networkPerimeter c))) ]) ].

Definition Value_of_CostAndUsageReportConfig (c : CostAndUsageReportConfig)
  : Value :=
  VMap (optional_entry "additionalSchemaElements" VStrings
          (additionalSchemaElements c)
        ++ [ ("compression", VStr (compression c));
             ("format", VStr (format c));
             ("reportName", VStr (reportName c));
             ("s3Prefix", VStr (s3Prefix c));
             ("timeUnit", VStr (cur_timeUnit c)) ]
        ++ optional_entry "additionalArtifacts" VStrings
             (additionalArtifacts c)
        ++ [ ("refreshClosedReports", VBool (refreshClosedReports c));
             ("reportVersioning", VStr (reportVersioning c)) ]).

Definition Value_of_NotificationConfig (c : NotificationConfig) : Value :=
  VMap ([ ("notificationType", VStr (notificationType c));
          ("thresholdType", VStr (thresholdType c));
          ("comparisonOperator", VStr (comparisonOperator c)) ]
        ++ optional_entry "threshold" VNum (threshold c)).

Definition Value_of_BudgetReportConfig (c : BudgetReportConfig) : Value :=
  VMap (optional_entry "address" VStr (address c)
        ++ [ ("amount", VNum (amount c));
             ("budgetName", VStr (budgetName c));
             ("timeUnit", VStr (budget_timeUnit c));
             ("budgetType", VStr (budgetType c)) ]
        ++ optional_entry "includeUpfront" VBool (includeUpfront c)
        ++ optional_entry "includeTax" VBool (includeTax c)
        ++ optional_entry "includeSupport" VBool (includeSupport c)
        ++ optional_entry "includeOtherSubscription" VBool
             (includeOtherSubscription c)
        ++ optional_entry "includeSubscription" VBool (includeSubscription c)
        ++ optional_entry "includeRecurring" VBool (includeRecurring c)
        ++ optional_entry "includeDiscount" VBool (includeDiscount c)
        ++ optional_entry "includeRefund" VBool (includeRefund c)
        ++ optional_entry "includeCredit" VBool (includeCredit c)
        ++ optional_entry "useAmortized" VBool (useAmortized c)
        ++ optional_entry "useBlended" VBool (useBlended c)
        ++ [ ("subscriptionType", VStr (subscriptionType c)) ]
        ++ optional_entry "unit" VStr (unit_ c)
        ++ optional_entry "notifications"
             (fun ns => VList (map Value_of_NotificationConfig ns))
             (notifications c)).

Definition Value_of_ReportConfig (c : ReportConfig) : Value :=
  VMap (optional_entry "costAndUsageReport" Value_of_CostAndUsageReportConfig
          (costAndUsageReport c)
        ++ optional_entry "budgets" Value_of_BudgetReportConfig (budgets c)).

Definition Value_of_GlobalConfig (c : GlobalConfig) : Value :=
  VMap ([ ("homeRegion", VStr (homeRegion c));
          ("enabledRegions", VStrings (enabledRegions c));
          ("managementAccountAccessRole",
            VStr (managementAccountAccessRole c));
          ("cloudwatchLogRetentionInDays",
            VNum (cloudwatchLogRetentionInDays c));
          ("controlTower", Value_of_ControlTowerConfig (controlTower c));
          ("logging", Value_of_LoggingConfig (logging c)) ]
        ++ optional_entry "dataProtection" Value_of_DataProtectionConfig
             (dataProtection c)
        ++ optional_entry "reports" Value_of_ReportConfig (reports c)).

(* ===================================================================== *)
(** ** Sample inputs *)
(* ===================================================================== *)

(** A parsed document that names its regions and the log retention and
    spells every other required section out with the usual values. *)
Definition sample_values (home : string) (enabled : list Region)
  (retention : Z) : GlobalConfigValues :=
  {| v_homeRegion := home;
     v_enabledRegions := enabled;
     v_managementAccountAccessRole := "AWSControlTowerExecution";
     v_cloudwatchLogRetentionInDays := retention;
     v_controlTower := new_ControlTowerConfig;
     v_logging := new_LoggingConfig;
     v_dataProtection := None;
     v_reports := None |}.

(** The same parsed document with another list of enabled regions. *)
Definition with_enabledRegions (values : GlobalConfigValues)
  (enabled : list Region) : GlobalConfigValues :=
  {| v_homeRegion := v_homeRegion values;
     v_enabledRegions := enabled;
     v_managementAccountAccessRole := v_managementAccountAccessRole values;
     v_cloudwatchLogRetentionInDays := v_cloudwatchLogRetentionInDays values;
     v_controlTower := v_controlTower values;
     v_logging := v_logging values;
     v_dataProtection := v_dataProtection values;
     v_reports := v_reports values |}.

(** Collaborators for running the loaders on a few fixed documents:
    directories [conf], [us], [shape] and [syntax] holding one document
    each, and a deserialiser and structural parser that know them. *)
Definition required_sections : string :=
  "managementAccountAccessRole: AWSControlTowerExecution, "
  ++ "controlTower: {enable: true}, "
  ++ "logging: {account: LogArchive, "
  ++ "cloudtrail: {enable: false, organizationTrail: false}, "
  ++ "sessionManager: {sendToCloudWatchLogs: false, sendToS3: false, "
  ++ "excludeRegions: [], excludeAccounts: []}}".

Definition eu_document : string :=
  "{homeRegion: eu-west-1, enabledRegions: [eu-west-1], "
  ++ "cloudwatchLogRetentionInDays: 90, " ++ required_sections ++ "}".

Definition us_document : string :=
  "{homeRegion: us-east-1, enabledRegions: [us-east-1], "
  ++ "cloudwatchLogRetentionInDays: 90, " ++ required_sections ++ "}".

Definition bad_shape_document : string := "{homeRegion: 7}".

Inductive SampleTree : Type :=
| EuTree
| UsTree
| BadShapeTree.

Definition sample_path_join (dir file : string) : string :=
  dir ++ "/" ++ file.

Definition sample_readFileSync (path : string) : result string :=
  if path =? "conf/global-config.yaml" then Ok eu_document
  else if path =? "us/global-config.yaml" then Ok us_document
  else if path =? "shape/global-config.yaml" then Ok bad_shape_document
  else if path =? "syntax/global-config.yaml" then Ok "{"
  else Throw (SourceUnavailable "ENOENT: no such file or directory").

Definition sample_yaml_load (content : string) : result SampleTree :=
  if content =? eu_document then Ok EuTree
  else if content =? us_document then Ok UsTree
  else if content =? bad_shape_document then Ok BadShapeTree
  else Throw (DeserializationFailure
                "YAMLException: unexpected end of the stream").

Definition sample_t_parse (tree : SampleTree) : result GlobalConfigValues :=
  match tree with
  | EuTree => Ok (sample_values "eu-west-1" [ "eu-west-1" ] 90)
  | UsTree => Ok (sample_values "us-east-1" [ "us-east-1" ] 90)
  | BadShapeTree => Throw (StructuralViolation "homeRegion: expected string")
  end.

Definition sample_imports : Imports SampleTree :=
  {| path_join := sample_path_join;
     readFileSync := sample_readFileSync;
     yaml_load := sample_yaml_load;
     t_parse := sample_t_parse |}.

(** Parsed values seen as a generic value, property by property, the
    way [Value_of_GlobalConfig] shows a constructed object. *)
Definition Value_of_GlobalConfigValues (v : GlobalConfigValues) : Value :=
  VMap ([ ("homeRegion", VStr (v_homeRegion v));
          ("enabledRegions", VStrings (v_enabledRegions v));
          ("managementAccountAccessRole",
            VStr (v_managementAccountAccessRole v));
          ("cloudwatchLogRetentionInDays",
            VNum (v_cloudwatchLogRetentionInDays v));
          ("controlTower", Value_of_ControlTowerConfig (v_controlTower v));
          ("logging", Value_of_LoggingConfig (v_logging v)) ]
        ++ optional_entry "dataProtection" Value_of_DataProtectionConfig
             (v_dataProtection v)
        ++ optional_entry "reports" Value_of_ReportConfig (v_reports v)).

(** A parsed document whose logging section names another account and
    leaves the optional exclusion lists of the session manager out. *)
Definition terse_logging : LoggingConfig :=
  {| account := "Logs";
     cloudtrail := {| trail_enable := true; organizationTrail := true |};
     sessionManager :=
       {| sendToCloudWatchLogs := true;
          sendToS3 := false;
          excludeRegions := None;
          excludeAccounts := None |} |}.

(** A document, as a generic mapping, that lists its keys in an order
    of its own and carries a key the schema does not know. *)
Definition shuffled_document : list (string * Value) :=
  [ ("enabledRegions", VStrings [ "us-east-1"; "us-west-2" ]);
    ("comment", VStr "managed by the platform team");
    ("homeRegion", VStr "us-east-1");
    ("cloudwatchLogRetentionInDays", VNum 30);
    ("managementAccountAccessRole", VStr "OrganizationAccountAccessRole");
    ("controlTower", VMap [ ("enable", VBool true) ]);
    ("logging", Value_of_LoggingConfig terse_logging) ].

Definition terse_values : GlobalConfigValues :=
  {| v_homeRegion := "us-east-1";
     v_enabledRegions := [ "us-east-1"; "us-west-2" ];
     v_managementAccountAccessRole := "OrganizationAccountAccessRole";
     v_cloudwatchLogRetentionInDays := 30;
     v_controlTower := {| ct_enable := false |};
     v_logging := terse_logging;
     v_dataProtection := Some new_DataProtectionConfig;
     v_reports := None |}.

(* ===================================================================== *)
(** * Properties *)
(* ===================================================================== *)

(** ** Strings and lists *)

Lemma append_assoc (a b c : string) : (a ++ b) ++ c = a ++ (b ++ c).
Proof.
  induction a as [|ch a IH]; simpl.
  - reflexivity.
  - now rewrite IH.
Qed.

Lemma append_empty_r (a : string) : a ++ "" = a.
Proof.
  induction a as [|ch a IH]; simpl.
  - reflexivity.
  - now rewrite IH.
Qed.

Lemma prefix_append (needle post : string) :
  String.prefix needle (needle ++ post) = true.
Proof.
  induction needle as [|ch needle IH]; simpl.
  - destruct post; reflexivity.
  - destruct (ascii_dec ch ch) as [_|ne]; [exact IH | now elim ne].
Qed.

Lemma prefix_split (needle hay : string) :
  String.prefix needle hay = true -> exists post, hay = needle ++ post.
Proof.
  revert hay.
  induction needle as [|ch needle IH]; intros hay H.
  - exists hay. reflexivity.
  - destruct hay as [|ch' hay]; simpl in H; [discriminate|].
    destruct (ascii_dec ch ch') as [->|_]; [|discriminate].
    destruct (IH hay H) as [post ->].
    exists post. reflexivity.
Qed.

(** [str_includes] finds exactly the needles that occur somewhere. *)
Lemma str_includes_iff (needle hay : string) :
  str_includes needle hay = true <->
  exists pre post, hay = pre ++ needle ++ post.
Proof.
  split.
  - induction hay as [|ch hay IH]; intro H; cbn [str_includes] in H.
    + rewrite orb_false_r in H.
      destruct (prefix_split _ _ H) as [post ->].
      exists "", post. reflexivity.
    + apply orb_true_iff in H. destruct H as [H|H].
      * destruct (prefix_split _ _ H) as [post E].
        exists "", post. exact E.
      * destruct (IH H) as (pre & post & ->).
        exists (String ch pre), post. reflexivity.
  - intros (pre & post & ->).
    induction pre as [|ch pre IH].
    + change ("" ++ needle ++ post) with (needle ++ post).
      destruct (needle ++ post) eqn:E; cbn [str_includes];
        rewrite <- E, prefix_append; reflexivity.
    + change (String ch pre ++ needle ++ post)
        with (String ch (pre ++ needle ++ post)).
      cbn [str_includes]. rewrite IH. apply orb_true_r.
Qed.

Lemma str_includes_middle (pre needle post : string) :
  str_includes needle (pre ++ needle ++ post) = true.
Proof. apply str_includes_iff. now exists pre, post. Qed.

Lemma includes_In (xs : list string) (x : string) :
  includes xs x = true <-> In x xs.
Proof.
  unfold includes. rewrite existsb_exists. split.
  - intros (y & Hy & E). apply String.eqb_eq in E. now subst.
  - intro H. exists x. split; [exact H | apply String.eqb_refl].
Qed.

Lemma includes_not_In (xs : list string) (x : string) :
  includes xs x = false <-> ~ In x xs.
Proof.
  rewrite <- includes_In. destruct (includes xs x); split; intro H.
  - discriminate.
  - now elim H.
  - intro; discriminate.
  - reflexivity.
Qed.

(** Every element of an array occurs in its [join]. *)
Lemma join_includes (sep : string) (xs : list string) (x : string) :
  In x xs -> exists pre post, join sep xs = pre ++ x ++ post.
Proof.
  induction xs as [|y rest IH]; intro H; [destruct H|].
  destruct H as [->|H].
  - destruct rest as [|z rest'].
    + exists "", "". simpl. now rewrite append_empty_r.
    + exists "", (sep ++ join sep (z :: rest')). reflexivity.
  - destruct rest as [|z rest']; [destruct H|].
    destruct (IH H) as (pre & post & E).
    exists (y ++ sep ++ pre), post.
    change (join sep (y :: z :: rest'))
      with (y ++ sep ++ join sep (z :: rest')).
    rewrite E, !append_assoc. reflexivity.
Qed.

(** ** The validation block *)

(** A [values] argument of the declared type has both fields the guard
    of the block tests, so the rules run whenever [values] is given. *)
Lemma guard_holds_on_values (v : GlobalConfigValues) :
  defined (option_map v_homeRegion (Some v))
  && defined (option_map v_cloudwatchLogRetentionInDays (Some v)) = true.
Proof. reflexivity. Qed.

(** The block reports at most one violation. *)
Lemma semantic_errors_cases (values : option GlobalConfigValues) :
  semantic_errors values = []
  \/ semantic_errors values = [ GOV_HOME_REGION_ERROR ]
  \/ semantic_errors values = [ US_EAST_1_ERROR ].
Proof.
  destruct values as [v|]; [|left; reflexivity].
  unfold semantic_errors; simpl.
  destruct (v_homeRegion v =? "us-gov-west-1"); simpl; [now left|].
  destruct (v_homeRegion v =? "us-gov-east-1"); simpl; [now right; left|].
  destruct (v_homeRegion v =? "us-east-1"); simpl; [now left|].
  destruct (includes (v_enabledRegions v) "us-east-1"); simpl;
    [now left | now right; right].
Qed.

(** Without a [values] argument nothing is validated. *)
Lemma semantic_errors_None : semantic_errors None = [].
Proof. reflexivity. Qed.

(** What the constructor returns, by the outcome of the validation. *)
Lemma new_GlobalConfig_clean (props : Props)
  (values : option GlobalConfigValues) :
  semantic_errors values = [] ->
  new_GlobalConfig props values =
  Ok (assign_regions
        (match values with
         | Some v => Object_assign field_initialisers v
         | None => field_initialisers
         end) props).
Proof. intro E. unfold new_GlobalConfig. rewrite E. reflexivity. Qed.

Lemma new_GlobalConfig_rejects (props : Props)
  (values : option GlobalConfigValues) :
  semantic_errors values <> [] ->
  new_GlobalConfig props values =
  Throw (JsError (issues_message (semantic_errors values))).
Proof.
  intro NE. unfold new_GlobalConfig.
  destruct (semantic_errors values) as [|e rest]; [now elim NE|].
  reflexivity.
Qed.

Lemma semantic_errors_gov_west (v : GlobalConfigValues) :
  v_homeRegion v = "us-gov-west-1" -> semantic_errors (Some v) = [].
Proof. intro E. unfold semantic_errors; simpl. rewrite E. reflexivity. Qed.

Lemma semantic_errors_gov_east (v : GlobalConfigValues) :
  v_homeRegion v = "us-gov-east-1" ->
  semantic_errors (Some v) = [ GOV_HOME_REGION_ERROR ].
Proof. intro E. unfold semantic_errors; simpl. rewrite E. reflexivity. Qed.

Lemma semantic_errors_commercial (v : GlobalConfigValues) :
  v_homeRegion v <> "us-gov-west-1" ->
  v_homeRegion v <> "us-gov-east-1" ->
  semantic_errors (Some v) =
  if negb (v_homeRegion v =? "us-east-1")
     && negb (includes (v_enabledRegions v) "us-east-1")
  then [ US_EAST_1_ERROR ] else [].
Proof.
  intros W E. unfold semantic_errors; simpl.
  apply String.eqb_neq in W. apply String.eqb_neq in E.
  rewrite W, E. simpl.
  destruct (negb (v_homeRegion v =? "us-east-1")
            && negb (includes (v_enabledRegions v) "us-east-1"));
    reflexivity.
Qed.

(** ** The aggregated error *)

(** The message names the file, the number of issues and every issue,
    whatever the list of issues is. *)
Lemma issues_message_carries (errors : list string) :
  String.prefix "global-config.yaml" (issues_message errors) = true
  /\ str_includes (string_of_nat (length errors)) (issues_message errors) = true
  /\ (forall e, In e errors -> str_includes e (issues_message errors) = true).
Proof.
  unfold issues_message. split; [|split].
  - apply (prefix_append FILENAME).
  - rewrite <- (append_assoc FILENAME " has ").
    apply str_includes_middle.
  - intros e H.
    destruct (join_includes " " errors e H) as (pre & post & E).
    rewrite E.
    rewrite <- (append_assoc " issues: "),
            <- (append_assoc (string_of_nat (length errors))),
            <- (append_assoc " has "),
            <- (append_assoc FILENAME).
    apply str_includes_middle.
Qed.

Example issues_message_gov :
  issues_message [ GOV_HOME_REGION_ERROR ] =
  "global-config.yaml has 1 issues: The region us-gov-west-1 must be the home region.".
Proof. reflexivity. Qed.

Example issues_message_us_east_1 :
  issues_message [ US_EAST_1_ERROR ] =
  "global-config.yaml has 1 issues: The region us-east-1 must be included in the list of enabled regions".
Proof. reflexivity. Qed.

(** ** The constructor *)

(** C8. Constructing a [GlobalConfig] from the required [homeRegion]
    alone, with no parsed values, succeeds and yields the documented
    defaults: the access role is AWSControlTowerExecution, the log
    retention is 365 days, Control Tower is enabled, the logging account
    is LogArchive, CloudTrail and its organisation trail are off, the
    session manager sends neither to CloudWatch Logs nor to S3, and
    data protection and reports are absent. *)
Theorem defaults_without_values (home : string) :
  exists config,
    new_GlobalConfig {| p_homeRegion := home |} None = Ok config
    /\ homeRegion config = home
    /\ managementAccountAccessRole config = "AWSControlTowerExecution"
    /\ cloudwatchLogRetentionInDays config = 365%Z
    /\ ct_enable (controlTower config) = true
    /\ account (logging config) = "LogArchive"
    /\ trail_enable (cloudtrail (logging config)) = false
    /\ organizationTrail (cloudtrail (logging config)) = false
    /\ sendToCloudWatchLogs (sessionManager (logging config)) = false
    /\ sendToS3 (sessionManager (logging config)) = false
    /\ dataProtection config = None
    /\ reports config = None.
Proof.
  eexists. split; [reflexivity|].
  repeat split.
Qed.

(** C1. For parsed values handed to the constructor (their home region
    and log retention are then both defined) whose home region is
    us-gov-west-1 or us-gov-east-1: construction fails, with the
    GovCloud home-region violation, exactly when the home region is not
    us-gov-west-1. With us-gov-west-1 it succeeds whatever the enabled
    regions are; with us-gov-east-1 it fails. *)
Theorem govcloud_home_region_rule (props : Props)
  (values : GlobalConfigValues) :
  v_homeRegion values = "us-gov-west-1"
  \/ v_homeRegion values = "us-gov-east-1" ->
  (new_GlobalConfig props (Some values)
   = Throw (JsError (issues_message [ GOV_HOME_REGION_ERROR ]))
   <-> v_homeRegion values <> "us-gov-west-1")
  /\ (is_ok (new_GlobalConfig props (Some values)) = false
      <-> v_homeRegion values <> "us-gov-west-1")
  /\ (v_homeRegion values = "us-gov-west-1" ->
      forall enabled,
        is_ok (new_GlobalConfig props
                 (Some (with_enabledRegions values enabled))) = true)
  /\ (v_homeRegion values = "us-gov-east-1" ->
      new_GlobalConfig props (Some values)
      = Throw (JsError (issues_message [ GOV_HOME_REGION_ERROR ]))).
Proof.
  intros [W|E].
  - pose proof (semantic_errors_gov_west values W) as S.
    rewrite (new_GlobalConfig_clean props (Some values) S).
    repeat split; try discriminate.
    + intro N. now elim N.
    + intro N. now elim N.
    + intros _ enabled.
      rewrite (new_GlobalConfig_clean props
                 (Some (with_enabledRegions values enabled))).
      * reflexivity.
      * apply semantic_errors_gov_west. exact W.
    + intro E. rewrite W in E. discriminate.
  - pose proof (semantic_errors_gov_east values E) as S.
    assert (R : new_GlobalConfig props (Some values)
                = Throw (JsError (issues_message [ GOV_HOME_REGION_ERROR ]))).
    { rewrite <- S. apply new_GlobalConfig_rejects. rewrite S. discriminate. }
    rewrite R.
    repeat split; try (intros _; rewrite E; discriminate).
    intro W. rewrite E in W. discriminate.
Qed.

Lemma govcloud_home_region_rule_witness :
  (v_homeRegion (sample_values "us-gov-east-1" [ "us-gov-east-1" ] 365)
   = "us-gov-west-1"
   \/ v_homeRegion (sample_values "us-gov-east-1" [ "us-gov-east-1" ] 365)
      = "us-gov-east-1")
  /\ new_GlobalConfig {| p_homeRegion := "us-gov-east-1" |}
       (Some (sample_values "us-gov-east-1" [ "us-gov-east-1" ] 365))
     = Throw (JsError (issues_message [ GOV_HOME_REGION_ERROR ])).
Proof.
  split.
  - right. reflexivity.
  - apply (govcloud_home_region_rule
             {| p_homeRegion := "us-gov-east-1" |}
             (sample_values "us-gov-east-1" [ "us-gov-east-1" ] 365)).
    + right. reflexivity.
    + reflexivity.
Defined.

(** C2. For parsed values handed to the constructor whose home region
    is neither us-gov-west-1 nor us-gov-east-1: construction fails,
    with the violation that us-east-1 must be included in the list of
    enabled regions, exactly when the home region is not us-east-1 and
    us-east-1 is not among the enabled regions. Adding us-east-1 to the
    enabled regions, all else equal, makes construction succeed. *)
Theorem commercial_us_east_1_rule (props : Props)
  (values : GlobalConfigValues) :
  v_homeRegion values <> "us-gov-west-1" ->
  v_homeRegion values <> "us-gov-east-1" ->
  (new_GlobalConfig props (Some values)
   = Throw (JsError (issues_message [ US_EAST_1_ERROR ]))
   <-> v_homeRegion values <> "us-east-1"
       /\ ~ In "us-east-1" (v_enabledRegions values))
  /\ (is_ok (new_GlobalConfig props (Some values)) = false
      <-> v_homeRegion values <> "us-east-1"
          /\ ~ In "us-east-1" (v_enabledRegions values))
  /\ (forall before after : list Region,
        v_enabledRegions values = (before ++ after)%list ->
        is_ok (new_GlobalConfig props
                 (Some (with_enabledRegions values
                          (before ++ "us-east-1" :: after)%list))) = true).
Proof.
  intros W E.
  pose proof (semantic_errors_commercial values W E) as S.
  assert (Added : forall before after : list Region,
             is_ok (new_GlobalConfig props
                      (Some (with_enabledRegions values
                               (before ++ "us-east-1" :: after)%list))) = true).
  { intros before after.
    rewrite new_GlobalConfig_clean; [reflexivity|].
    rewrite semantic_errors_commercial by assumption. simpl.
    replace (includes (before ++ "us-east-1" :: after)%list "us-east-1")
      with true.
    - now rewrite andb_false_r.
    - symmetry. apply includes_In, in_or_app. right. now left. }
  destruct (String.eqb_spec (v_homeRegion values) "us-east-1") as [H|H];
    simpl in S.
  - rewrite (new_GlobalConfig_clean props (Some values) S).
    repeat split; try discriminate; try (intros [N _]; now elim N).
    intros before after _. apply Added.
  - destruct (includes (v_enabledRegions values) "us-east-1") eqn:I;
      simpl in S.
    + apply includes_In in I.
      rewrite (new_GlobalConfig_clean props (Some values) S).
      repeat split; try discriminate; try (intros [_ N]; now elim N).
      intros before after _. apply Added.
    + apply includes_not_In in I.
      assert (R : new_GlobalConfig props (Some values)
                  = Throw (JsError (issues_message [ US_EAST_1_ERROR ]))).
      { rewrite <- S. apply new_GlobalConfig_rejects. rewrite S.
        discriminate. }
      rewrite R. repeat split; try assumption.
      intros before after _. apply Added.
Qed.

Lemma commercial_us_east_1_rule_witness :
  (v_homeRegion (sample_values "eu-west-1" [ "eu-west-1" ] 90)
   <> "us-gov-west-1"
   /\ v_homeRegion (sample_values "eu-west-1" [ "eu-west-1" ] 90)
      <> "us-gov-east-1")
  /\ new_GlobalConfig {| p_homeRegion := "eu-west-1" |}
       (Some (sample_values "eu-west-1" [ "eu-west-1" ] 90))
     = Throw (JsError (issues_message [ US_EAST_1_ERROR ]))
  /\ is_ok (new_GlobalConfig {| p_homeRegion := "eu-west-1" |}
              (Some (sample_values "eu-west-1"
                       [ "eu-west-1"; "us-east-1" ] 90))) = true.
Proof.
  assert (W : v_homeRegion (sample_values "eu-west-1" [ "eu-west-1" ] 90)
              <> "us-gov-west-1") by discriminate.
  assert (E : v_homeRegion (sample_values "eu-west-1" [ "eu-west-1" ] 90)
              <> "us-gov-east-1") by discriminate.
  split; [split; assumption|].
  destruct (commercial_us_east_1_rule
              {| p_homeRegion := "eu-west-1" |}
              (sample_values "eu-west-1" [ "eu-west-1" ] 90) W E)
    as (Fails & _ & Added).
  split.
  - apply Fails. split.
    + discriminate.
    + intros [H|[]]. discriminate.
  - apply (Added [ "eu-west-1" ] []). reflexivity.
Defined.

(** C9. Whenever the validation block of the constructor finds one or
    more violated rules, the constructor throws one error and returns
    no object. The message of that error starts with the file name
    global-config.yaml, gives the number of issues and contains every
    violation message. *)
Theorem semantic_violations_raise_one_error (props : Props)
  (values : option GlobalConfigValues) :
  semantic_errors values <> [] ->
  exists message,
    new_GlobalConfig props values = Throw (JsError message)
    /\ message
       = FILENAME ++ " has "
         ++ string_of_nat (length (semantic_errors values))
         ++ " issues: " ++ join " " (semantic_errors values)
    /\ String.prefix "global-config.yaml" message = true
    /\ str_includes (string_of_nat (length (semantic_errors values))) message
       = true
    /\ (forall e, In e (semantic_errors values) ->
                  str_includes e message = true)
    /\ (forall config, new_GlobalConfig props values <> Ok config).
Proof.
  intro NE.
  exists (issues_message (semantic_errors values)).
  pose proof (new_GlobalConfig_rejects props values NE) as R.
  destruct (issues_message_carries (semantic_errors values))
    as (Name & Count & Each).
  repeat split; try assumption.
  intros config C. rewrite R in C. discriminate.
Qed.

Lemma semantic_violations_raise_one_error_witness :
  semantic_errors (Some (sample_values "eu-west-1" [ "eu-west-1" ] 90)) <> []
  /\ exists message,
       new_GlobalConfig {| p_homeRegion := "eu-west-1" |}
         (Some (sample_values "eu-west-1" [ "eu-west-1" ] 90))
       = Throw (JsError message)
       /\ str_includes US_EAST_1_ERROR message = true.
Proof.
  assert (NE : semantic_errors
                 (Some (sample_values "eu-west-1" [ "eu-west-1" ] 90)) <> [])
    by discriminate.
  split; [exact NE|].
  destruct (semantic_violations_raise_one_error
              {| p_homeRegion := "eu-west-1" |}
              (Some (sample_values "eu-west-1" [ "eu-west-1" ] 90)) NE)
    as (message & R & _ & _ & _ & Each & _).
  exists message. split; [exact R|].
  apply Each. left. reflexivity.
Defined.

(** The overlay on the fields that have an initialiser: what the parsed
    values hold replaces the default, nested sections as a whole; an
    optional section the parsed values lack stays absent. *)
Lemma Object_assign_overlay (props : Props) (values : GlobalConfigValues)
  (config : GlobalConfig) :
  new_GlobalConfig props (Some values) = Ok config ->
  managementAccountAccessRole config = v_managementAccountAccessRole values
  /\ cloudwatchLogRetentionInDays config
     = v_cloudwatchLogRetentionInDays values
  /\ controlTower config = v_controlTower values
  /\ logging config = v_logging values
  /\ dataProtection config = v_dataProtection values
  /\ reports config = v_reports values.
Proof.
  unfold new_GlobalConfig.
  destruct (negb (length (semantic_errors (Some values)) =? 0)%nat);
    [discriminate|].
  intro H. injection H as <-. simpl.
  destruct (v_dataProtection values), (v_reports values); repeat split.
Qed.

(** What a successful construction leaves in the two region fields. *)
Lemma new_GlobalConfig_regions (props : Props)
  (values : option GlobalConfigValues) (config : GlobalConfig) :
  new_GlobalConfig props values = Ok config ->
  homeRegion config = p_homeRegion props
  /\ enabledRegions config = [ p_homeRegion props ].
Proof.
  unfold new_GlobalConfig.
  destruct (negb (length (semantic_errors values) =? 0)%nat);
    [discriminate|].
  intro H. injection H as <-. split; reflexivity.
Qed.

(** C4, on the code. The constructor is given the home region us-east-1
    and parsed values that enable us-east-1 and us-west-2, the example
    the documentation of [enabledRegions] gives. Construction succeeds
    and the other fields are overlaid, but the list of enabled regions
    of the parsed values does not reach the object: the object ends up
    with us-east-1 alone. *)
Theorem enabledRegions_not_overlaid :
  exists config,
    new_GlobalConfig {| p_homeRegion := "us-east-1" |}
      (Some (sample_values "us-east-1" [ "us-east-1"; "us-west-2" ] 90))
    = Ok config
    /\ cloudwatchLogRetentionInDays config = 90%Z
    /\ enabledRegions config = [ "us-east-1" ]
    /\ enabledRegions config
       <> v_enabledRegions
            (sample_values "us-east-1" [ "us-east-1"; "us-west-2" ] 90).
Proof.
  eexists. split; [reflexivity|].
  repeat split. discriminate.
Qed.

(** ** Defaults against the schema *)

(** C10. For a home region that is a non-empty string of the supported
    region set, the object constructed from it alone, with no parsed
    values, passes the root schema [globalConfig] without a single
    structural violation. *)
Theorem defaults_are_schema_valid (regions : list Region) (home : string) :
  home <> "" ->
  In home regions ->
  exists config,
    new_GlobalConfig {| p_homeRegion := home |} None = Ok config
    /\ validate regions GlobalConfigTypes.globalConfig []
         (Some (Value_of_GlobalConfig config)) = [].
Proof.
  intros NE Member.
  eexists. split; [reflexivity|].
  apply String.eqb_neq in NE.
  apply includes_In in Member.
  cbn. rewrite NE, Member. reflexivity.
Qed.

Lemma defaults_are_schema_valid_witness :
  ("us-east-1" <> "" /\ In "us-east-1" [ "us-east-1"; "eu-west-1" ])
  /\ exists config,
       new_GlobalConfig {| p_homeRegion := "us-east-1" |} None = Ok config
       /\ validate [ "us-east-1"; "eu-west-1" ] GlobalConfigTypes.globalConfig
            [] (Some (Value_of_GlobalConfig config)) = [].
Proof.
  assert (NE : "us-east-1" <> "") by discriminate.
  assert (Member : In "us-east-1" [ "us-east-1"; "eu-west-1" ])
    by (left; reflexivity).
  split; [split; assumption|].
  exact (defaults_are_schema_valid [ "us-east-1"; "eu-west-1" ] "us-east-1"
           NE Member).
Defined.

(** The hypotheses of C10 are needed: an empty home region, or one
    outside the supported set, makes the defaults fail the schema. *)
Example empty_home_region_is_rejected :
  validate [ "us-east-1" ] GlobalConfigTypes.globalConfig []
    (Some (Value_of_GlobalConfig
             (assign_regions field_initialisers {| p_homeRegion := "" |})))
  = [ {| viol_path := [ "homeRegion" ];
         viol_expected := "non-empty string";
         viol_actual := "string" |};
      {| viol_path := [ "enabledRegions"; "0" ];
         viol_expected := "region";
         viol_actual := "string" |} ].
Proof. reflexivity. Qed.

Example unknown_home_region_is_rejected :
  validate [ "us-east-1" ] GlobalConfigTypes.globalConfig []
    (Some (Value_of_GlobalConfig
             (assign_regions field_initialisers
                {| p_homeRegion := "moon-1" |})))
  = [ {| viol_path := [ "enabledRegions"; "0" ];
         viol_expected := "region";
         viol_actual := "string" |} ].
Proof. reflexivity. Qed.

(** ** The loaders *)

Section LoaderProperties.

Variable Generic : Type.
Variable io : Imports Generic.

(** A load from a file succeeds only through all four stages. *)
Lemma load_Ok_inv (dir : string) (config : GlobalConfig) :
  load io dir = Ok config ->
  exists buffer tree values,
    readFileSync io (path_join io dir FILENAME) = Ok buffer
    /\ yaml_load io buffer = Ok tree
    /\ t_parse io tree = Ok values
    /\ new_GlobalConfig {| p_homeRegion := v_homeRegion values |}
         (Some values) = Ok config.
Proof.
  unfold load, bind.
  destruct (readFileSync io (path_join io dir FILENAME)) as [buffer|] eqn:R;
    [|discriminate].
  destruct (yaml_load io buffer) as [tree|] eqn:Y; [|discriminate].
  destruct (t_parse io tree) as [values|] eqn:P; [|discriminate].
  intro H. exists buffer, tree, values. now repeat split.
Qed.

(** Once the document is parsed, a load from a string cannot fail:
    the constructor gets the parsed values as [props] only. *)
Lemma loadFromString_try_parsed (content : string) (tree : Generic)
  (values : GlobalConfigValues) :
  yaml_load io content = Ok tree ->
  t_parse io tree = Ok values ->
  loadFromString_try io content
  = Ok (assign_regions field_initialisers (as_props values)).
Proof.
  intros Y P. unfold loadFromString_try, bind.
  rewrite Y, P. reflexivity.
Qed.

Lemma loadFromString_try_Throw_inv (content : string) (e : exn) :
  loadFromString_try io content = Throw e ->
  yaml_load io content = Throw e
  \/ exists tree, yaml_load io content = Ok tree /\ t_parse io tree = Throw e.
Proof.
  unfold loadFromString_try, bind.
  destruct (yaml_load io content) as [tree|e1] eqn:Y.
  - destruct (t_parse io tree) as [values|e2] eqn:P.
    + discriminate.
    + intro H. right. exists tree. split; [reflexivity|].
      rewrite P. injection H as <-. reflexivity.
  - intro H. left. injection H as <-. reflexivity.
Qed.

(** C5. Every successfully constructed [GlobalConfig], whether it
    comes from the constructor, from [load] or from [loadFromString],
    has as its enabled regions the one-element list made of the home
    region the constructor got in [props]; the list of enabled regions
    of the parsed values is not in the object. *)
Theorem enabledRegions_is_home_region_alone :
  (forall props values config,
      new_GlobalConfig props values = Ok config ->
      enabledRegions config = [ p_homeRegion props ])
  /\ (forall dir config,
         load io dir = Ok config ->
         exists buffer tree values,
           readFileSync io (path_join io dir FILENAME) = Ok buffer
           /\ yaml_load io buffer = Ok tree
           /\ t_parse io tree = Ok values
           /\ enabledRegions config = [ v_homeRegion values ])
  /\ (forall content config,
         fst (loadFromString io content) = Some config ->
         exists tree values,
           yaml_load io content = Ok tree
           /\ t_parse io tree = Ok values
           /\ enabledRegions config = [ v_homeRegion values ]).
Proof.
  split; [|split].
  - intros props values config H.
    exact (proj2 (new_GlobalConfig_regions props values config H)).
  - intros dir config H.
    destruct (load_Ok_inv dir config H)
      as (buffer & tree & values & R & Y & P & N).
    exists buffer, tree, values. repeat split; try assumption.
    exact (proj2 (new_GlobalConfig_regions _ _ config N)).
  - intros content config.
    unfold loadFromString, loadFromString_try, bind.
    destruct (yaml_load io content) as [tree|] eqn:Y; [|discriminate].
    destruct (t_parse io tree) as [values|] eqn:P; [|discriminate].
    simpl. intro H. injection H as <-.
    exists tree, values. now repeat split.
Qed.

(** C6. When the input deserialises and parses, [loadFromString]
    returns an object whose fields other than the home region and the
    enabled regions are the defaults: nothing of the parsed values is
    overlaid and the cross-field validation does not run. So the only
    failures of [loadFromString] are those of the deserialiser and of
    the structural parse, never a semantic violation. *)
Theorem loadFromString_returns_defaults :
  (forall content tree values,
      yaml_load io content = Ok tree ->
      t_parse io tree = Ok values ->
      exists config,
        loadFromString io content = (Some config, [])
        /\ homeRegion config = v_homeRegion values
        /\ enabledRegions config = [ v_homeRegion values ]
        /\ managementAccountAccessRole config = "AWSControlTowerExecution"
        /\ cloudwatchLogRetentionInDays config = 365%Z
        /\ controlTower config = new_ControlTowerConfig
        /\ logging config = new_LoggingConfig
        /\ dataProtection config = None
        /\ reports config = None)
  /\ (forall content e,
         loadFromString_try io content = Throw e ->
         yaml_load io content = Throw e
         \/ exists tree,
             yaml_load io content = Ok tree /\ t_parse io tree = Throw e).
Proof.
  split.
  - intros content tree values Y P.
    exists (assign_regions field_initialisers (as_props values)).
    unfold loadFromString.
    rewrite (loadFromString_try_parsed content tree values Y P).
    repeat split.
  - apply loadFromString_try_Throw_inv.
Qed.

(** C3, on the code. For a document that deserialises and parses to
    home region eu-west-1, enabled regions eu-west-1 alone and a log
    retention of 90 days, [loadFromString] does not fail: it returns
    an object, with the default retention of 365 days, and logs
    nothing. [load] rejects the same parsed values with the violation
    that asks for us-east-1 among the enabled regions. *)
Theorem loadFromString_accepts_eu_west_1 (content : string)
  (tree : Generic) :
  yaml_load io content = Ok tree ->
  t_parse io tree = Ok (sample_values "eu-west-1" [ "eu-west-1" ] 90) ->
  loadFromString io content
  = (Some {| homeRegion := "eu-west-1";
             enabledRegions := [ "eu-west-1" ];
             managementAccountAccessRole := "AWSControlTowerExecution";
             cloudwatchLogRetentionInDays := 365;
             controlTower := new_ControlTowerConfig;
             logging := new_LoggingConfig;
             dataProtection := None;
             reports := None |}, [])
  /\ (forall dir,
         readFileSync io (path_join io dir FILENAME) = Ok content ->
         load io dir = Throw (JsError (issues_message [ US_EAST_1_ERROR ]))).
Proof.
  intros Y P. split.
  - unfold loadFromString.
    rewrite (loadFromString_try_parsed content tree _ Y P). reflexivity.
  - intros dir R. unfold load, bind.
    rewrite R, Y, P. reflexivity.
Qed.

(** C7, on the code. [loadFromString] never hands an error to its
    caller: whatever is thrown in its [try] block, it logs the
    diagnostic and the error and returns no object; that is what
    happens when the deserialiser or the structural parse throws. A
    document that breaks a cross-field rule is not such a failure for
    [loadFromString]: nothing is thrown, an object is returned and
    nothing is logged, where the claim wants a logged diagnostic and no
    object. [load] hands every failure on (file that cannot be read,
    deserialiser, structural parse, cross-field rule) and returns an
    object only when all four stages went through. *)
Theorem loader_error_contracts :
  (forall content,
      (exists config,
          loadFromString_try io content = Ok config
          /\ loadFromString io content = (Some config, []))
      \/ (exists e,
             loadFromString_try io content = Throw e
             /\ loadFromString io content
                = (None, [ DIAGNOSTIC; exn_toString e ])))
  /\ (forall content e,
         yaml_load io content = Throw e ->
         loadFromString io content = (None, [ DIAGNOSTIC; exn_toString e ]))
  /\ (forall content tree e,
         yaml_load io content = Ok tree ->
         t_parse io tree = Throw e ->
         loadFromString io content = (None, [ DIAGNOSTIC; exn_toString e ]))
  /\ (forall content tree values,
         yaml_load io content = Ok tree ->
         t_parse io tree = Ok values ->
         semantic_errors (Some values) <> [] ->
         loadFromString io content
         = (Some (assign_regions field_initialisers (as_props values)), []))
  /\ (forall dir e,
         readFileSync io (path_join io dir FILENAME) = Throw e ->
         load io dir = Throw e)
  /\ (forall dir buffer e,
         readFileSync io (path_join io dir FILENAME) = Ok buffer ->
         yaml_load io buffer = Throw e ->
         load io dir = Throw e)
  /\ (forall dir buffer tree e,
         readFileSync io (path_join io dir FILENAME) = Ok buffer ->
         yaml_load io buffer = Ok tree ->
         t_parse io tree = Throw e ->
         load io dir = Throw e)
  /\ (forall dir buffer tree values,
         readFileSync io (path_join io dir FILENAME) = Ok buffer ->
         yaml_load io buffer = Ok tree ->
         t_parse io tree = Ok values ->
         semantic_errors (Some values) <> [] ->
         load io dir
         = Throw (JsError (issues_message (semantic_errors (Some values)))))
  /\ (forall dir config,
         load io dir = Ok config ->
         exists buffer tree values,
           readFileSync io (path_join io dir FILENAME) = Ok buffer
           /\ yaml_load io buffer = Ok tree
           /\ t_parse io tree = Ok values
           /\ semantic_errors (Some values) = []).
Proof.
  repeat match goal with |- _ /\ _ => split end.
  - intro content. unfold loadFromString.
    destruct (loadFromString_try io content) as [config|e].
    + left. exists config. split; reflexivity.
    + right. exists e. split; reflexivity.
  - intros content e Y.
    unfold loadFromString, loadFromString_try, bind.
    rewrite Y. reflexivity.
  - intros content tree e Y P.
    unfold loadFromString, loadFromString_try, bind.
    rewrite Y, P. reflexivity.
  - intros content tree values Y P _.
    unfold loadFromString.
    rewrite (loadFromString_try_parsed content tree values Y P).
    reflexivity.
  - intros dir e R. unfold load, bind. rewrite R. reflexivity.
  - intros dir buffer e R Y. unfold load, bind.
    rewrite R, Y. reflexivity.
  - intros dir buffer tree e R Y P. unfold load, bind.
    rewrite R, Y, P. reflexivity.
  - intros dir buffer tree values R Y P NE. unfold load, bind.
    rewrite R, Y, P. apply new_GlobalConfig_rejects. exact NE.
  - intros dir config H.
    destruct (load_Ok_inv dir config H)
      as (buffer & tree & values & R & Y & P & N).
    exists buffer, tree, values. repeat split; try assumption.
    destruct (semantic_errors (Some values)) as [|e rest] eqn:S;
      [reflexivity|].
    rewrite new_GlobalConfig_rejects in N; [discriminate|].
    rewrite S. discriminate.
Qed.

End LoaderProperties.

(** ** The loaders on the sample documents *)

Lemma loadFromString_accepts_eu_west_1_witness :
  (yaml_load sample_imports eu_document = Ok EuTree
   /\ t_parse sample_imports EuTree
      = Ok (sample_values "eu-west-1" [ "eu-west-1" ] 90))
  /\ fst (loadFromString sample_imports eu_document) <> None
  /\ load sample_imports "conf"
     = Throw (JsError (issues_message [ US_EAST_1_ERROR ])).
Proof.
  assert (Y : yaml_load sample_imports eu_document = Ok EuTree)
    by reflexivity.
  assert (P : t_parse sample_imports EuTree
              = Ok (sample_values "eu-west-1" [ "eu-west-1" ] 90))
    by reflexivity.
  split; [split; assumption|].
  destruct (loadFromString_accepts_eu_west_1 SampleTree sample_imports
              eu_document EuTree Y P) as [Returned Sibling].
  split.
  - rewrite Returned. discriminate.
  - apply Sibling. reflexivity.
Defined.

Lemma enabledRegions_is_home_region_alone_witness :
  (exists config,
      load sample_imports "us" = Ok config
      /\ enabledRegions config = [ "us-east-1" ])
  /\ (exists config,
         fst (loadFromString sample_imports
                eu_document) = Some config
         /\ enabledRegions config = [ "eu-west-1" ]).
Proof.
  destruct (enabledRegions_is_home_region_alone SampleTree sample_imports)
    as (_ & Load & FromString).
  split.
  - eexists. split; [reflexivity|].
    destruct (Load "us" _ eq_refl) as (buffer & tree & values & R & Y & P & E).
    injection R as <-. injection Y as <-. injection P as <-. exact E.
  - eexists. split; [reflexivity|].
    destruct (FromString eu_document _ eq_refl) as (tree & values & Y & P & E).
    injection Y as <-. injection P as <-. exact E.
Defined.

Lemma loadFromString_returns_defaults_witness :
  exists config,
    loadFromString sample_imports us_document
    = (Some config, [])
    /\ homeRegion config = "us-east-1"
    /\ cloudwatchLogRetentionInDays config = 365%Z
    /\ account (logging config) = "LogArchive".
Proof.
  destruct (loadFromString_returns_defaults SampleTree sample_imports)
    as [Parsed _].
  destruct (Parsed us_document UsTree
              (sample_values "us-east-1" [ "us-east-1" ] 90)
              eq_refl eq_refl)
    as (config & L & H & _ & _ & C & _ & G & _).
  exists config. repeat split; try assumption.
  rewrite G. reflexivity.
Defined.

Lemma loader_error_contracts_witness :
  loadFromString sample_imports "{"
  = (None, [ DIAGNOSTIC; "YAMLException: unexpected end of the stream" ])
  /\ loadFromString sample_imports
       bad_shape_document
     = (None, [ DIAGNOSTIC; "homeRegion: expected string" ])
  /\ load sample_imports "nowhere"
     = Throw (SourceUnavailable "ENOENT: no such file or directory")
  /\ load sample_imports "syntax"
     = Throw (DeserializationFailure
                "YAMLException: unexpected end of the stream")
  /\ load sample_imports "shape"
     = Throw (StructuralViolation "homeRegion: expected string")
  /\ load sample_imports "conf"
     = Throw (JsError (issues_message [ US_EAST_1_ERROR ]))
  /\ semantic_errors (Some (sample_values "eu-west-1" [ "eu-west-1" ] 90))
     = [ US_EAST_1_ERROR ]
  /\ loadFromString sample_imports eu_document
     = (Some {| homeRegion := "eu-west-1";
                enabledRegions := [ "eu-west-1" ];
                managementAccountAccessRole := "AWSControlTowerExecution";
                cloudwatchLogRetentionInDays := 365;
                controlTower := new_ControlTowerConfig;
                logging := new_LoggingConfig;
                dataProtection := None;
                reports := None |}, []).
Proof.
  destruct (loader_error_contracts SampleTree sample_imports)
    as (_ & Syntax & Shape & Rule & NoFile & FileSyntax & FileShape
        & FileRule & _).
  split; [|split; [|split; [|split; [|split; [|split; [|split]]]]]].
  - exact (Syntax "{"
             (DeserializationFailure
                "YAMLException: unexpected end of the stream") eq_refl).
  - exact (Shape bad_shape_document BadShapeTree
             (StructuralViolation "homeRegion: expected string")
             eq_refl eq_refl).
  - exact (NoFile "nowhere"
             (SourceUnavailable "ENOENT: no such file or directory") eq_refl).
  - exact (FileSyntax "syntax" "{"
             (DeserializationFailure
                "YAMLException: unexpected end of the stream")
             eq_refl eq_refl).
  - exact (FileShape "shape" bad_shape_document BadShapeTree
             (StructuralViolation "homeRegion: expected string")
             eq_refl eq_refl eq_refl).
  - apply (FileRule "conf" eu_document EuTree
             (sample_values "eu-west-1" [ "eu-west-1" ] 90));
      try reflexivity.
    discriminate.
  - reflexivity.
  - apply (Rule eu_document EuTree
             (sample_values "eu-west-1" [ "eu-west-1" ] 90));
      try reflexivity.
    discriminate.
Defined.

(* ===================================================================== *)
(** * Further properties of the constructor *)
(* ===================================================================== *)

(** The outcome of the validation block is a function of the home
    region of [values] and of whether us-east-1 is enabled there. *)
Lemma semantic_errors_ext (v1 v2 : GlobalConfigValues) :
  v_homeRegion v1 = v_homeRegion v2 ->
  (In "us-east-1" (v_enabledRegions v1)
   <-> In "us-east-1" (v_enabledRegions v2)) ->
  semantic_errors (Some v1) = semantic_errors (Some v2).
Proof.
  intros H M. unfold semantic_errors; simpl. rewrite H.
  replace (includes (v_enabledRegions v1) "us-east-1")
    with (includes (v_enabledRegions v2) "us-east-1"); [reflexivity|].
  destruct (includes (v_enabledRegions v2) "us-east-1") eqn:I2.
  - symmetry. apply includes_In, M, includes_In, I2.
  - symmetry. apply includes_not_In. intro I1.
    apply includes_not_In in I2. apply I2, M, I1.
Qed.

(** The constructor throws exactly what the validation block found. *)
Lemma new_GlobalConfig_Throw_iff (props : Props)
  (values : option GlobalConfigValues) (e : exn) :
  new_GlobalConfig props values = Throw e <->
  semantic_errors values <> []
  /\ e = JsError (issues_message (semantic_errors values)).
Proof.
  split.
  - intro H. destruct (semantic_errors values) as [|x rest] eqn:S.
    + rewrite new_GlobalConfig_clean in H by exact S. discriminate.
    + rewrite new_GlobalConfig_rejects in H by (rewrite S; discriminate).
      rewrite S in H. injection H as <-. split; [discriminate | reflexivity].
  - intros [NE ->]. apply new_GlobalConfig_rejects. exact NE.
Qed.

(** X1. When construction with parsed values succeeds, the object is
    fully determined: its home region is the one of [props], its
    enabled regions are that region alone, and each of the other six
    fields is the field of the parsed values, a nested section taken as
    a whole (nothing of the default section is merged into it) and an
    optional section the parsed values lack left undefined. *)
Theorem construction_result_with_values (props : Props)
  (values : GlobalConfigValues) (config : GlobalConfig) :
  new_GlobalConfig props (Some values) = Ok config ->
  config
  = {| homeRegion := p_homeRegion props;
       enabledRegions := [ p_homeRegion props ];
       managementAccountAccessRole := v_managementAccountAccessRole values;
       cloudwatchLogRetentionInDays := v_cloudwatchLogRetentionInDays values;
       controlTower := v_controlTower values;
       logging := v_logging values;
       dataProtection := v_dataProtection values;
       reports := v_reports values |}.
Proof.
  unfold new_GlobalConfig.
  destruct (negb (length (semantic_errors (Some values)) =? 0)%nat);
    [discriminate|].
  intro H. injection H as <-.
  unfold assign_regions, Object_assign; simpl.
  destruct (v_dataProtection values), (v_reports values); reflexivity.
Qed.

Lemma construction_result_with_values_witness :
  exists config,
    new_GlobalConfig {| p_homeRegion := "us-east-1" |} (Some terse_values)
    = Ok config
    /\ account (logging config) = "Logs"
    /\ excludeRegions (sessionManager (logging config)) = None
    /\ dataProtection config = Some new_DataProtectionConfig.
Proof.
  assert (R : new_GlobalConfig {| p_homeRegion := "us-east-1" |}
                (Some terse_values)
              = Ok (assign_regions
                      (Object_assign field_initialisers terse_values)
                      {| p_homeRegion := "us-east-1" |}))
    by reflexivity.
  eexists. split; [exact R|].
  rewrite (construction_result_with_values _ _ _ R).
  repeat split.
Defined.

(** X2. Whether the constructor throws, and what, depends on nothing
    but the home region of the parsed values and on whether us-east-1
    is among their enabled regions: [props] and every other field of
    the parsed values are never looked at by the validation. *)
Theorem validation_reads_home_region_and_us_east_1 (props1 props2 : Props)
  (values1 values2 : GlobalConfigValues) :
  v_homeRegion values1 = v_homeRegion values2 ->
  (In "us-east-1" (v_enabledRegions values1)
   <-> In "us-east-1" (v_enabledRegions values2)) ->
  forall e,
    new_GlobalConfig props1 (Some values1) = Throw e
    <-> new_GlobalConfig props2 (Some values2) = Throw e.
Proof.
  intros H M e.
  rewrite !new_GlobalConfig_Throw_iff.
  rewrite (semantic_errors_ext values1 values2 H M). reflexivity.
Qed.

Lemma validation_reads_home_region_and_us_east_1_witness :
  (v_homeRegion (sample_values "eu-west-1" [ "eu-west-1" ] 90)
   = v_homeRegion (sample_values "eu-west-1" [ "ap-south-1" ] 7)
   /\ (In "us-east-1"
         (v_enabledRegions (sample_values "eu-west-1" [ "eu-west-1" ] 90))
       <-> In "us-east-1"
             (v_enabledRegions
                (sample_values "eu-west-1" [ "ap-south-1" ] 7))))
  /\ new_GlobalConfig {| p_homeRegion := "us-east-1" |}
       (Some (sample_values "eu-west-1" [ "ap-south-1" ] 7))
     = Throw (JsError (issues_message [ US_EAST_1_ERROR ])).
Proof.
  assert (H : v_homeRegion (sample_values "eu-west-1" [ "eu-west-1" ] 90)
              = v_homeRegion (sample_values "eu-west-1" [ "ap-south-1" ] 7))
    by reflexivity.
  assert (M : In "us-east-1"
                (v_enabledRegions
                   (sample_values "eu-west-1" [ "eu-west-1" ] 90))
              <-> In "us-east-1"
                    (v_enabledRegions
                       (sample_values "eu-west-1" [ "ap-south-1" ] 7))).
  { split; intros [E|[]]; discriminate. }
  split; [split; assumption|].
  apply (validation_reads_home_region_and_us_east_1
           {| p_homeRegion := "eu-west-1" |} {| p_homeRegion := "us-east-1" |}
           _ _ H M).
  reflexivity.
Defined.

(** X3. Enabling more regions never turns an accepted configuration
    into a rejected one: if construction succeeds for parsed values, it
    succeeds for the same values with any list of enabled regions that
    contains every region of the old list. *)
Theorem enabling_more_regions_keeps_validity (props : Props)
  (values : GlobalConfigValues) (enabled : list Region) :
  is_ok (new_GlobalConfig props (Some values)) = true ->
  incl (v_enabledRegions values) enabled ->
  is_ok (new_GlobalConfig props (Some (with_enabledRegions values enabled)))
  = true.
Proof.
  intros Accepted Sub.
  assert (S : semantic_errors (Some values) = []).
  { destruct (semantic_errors (Some values)) as [|x rest] eqn:S;
      [reflexivity|].
    rewrite new_GlobalConfig_rejects in Accepted
      by (rewrite S; discriminate).
    discriminate. }
  rewrite new_GlobalConfig_clean; [reflexivity|].
  revert S. unfold semantic_errors; simpl.
  destruct (v_homeRegion values =? "us-gov-west-1"); simpl; [reflexivity|].
  destruct (v_homeRegion values =? "us-gov-east-1"); simpl; [discriminate|].
  destruct (v_homeRegion values =? "us-east-1"); simpl; [reflexivity|].
  destruct (includes (v_enabledRegions values) "us-east-1") eqn:I; simpl;
    [|discriminate].
  intros _. apply includes_In, Sub, includes_In in I. rewrite I. reflexivity.
Qed.

Lemma enabling_more_regions_keeps_validity_witness :
  (is_ok (new_GlobalConfig {| p_homeRegion := "eu-west-1" |}
            (Some (sample_values "eu-west-1"
                     [ "eu-west-1"; "us-east-1" ] 90))) = true
   /\ incl [ "eu-west-1"; "us-east-1" ]
        [ "us-east-1"; "ap-south-1"; "eu-west-1" ])
  /\ is_ok (new_GlobalConfig {| p_homeRegion := "eu-west-1" |}
              (Some (sample_values "eu-west-1"
                       [ "us-east-1"; "ap-south-1"; "eu-west-1" ] 90)))
     = true.
Proof.
  assert (A : is_ok (new_GlobalConfig {| p_homeRegion := "eu-west-1" |}
                       (Some (sample_values "eu-west-1"
                                [ "eu-west-1"; "us-east-1" ] 90))) = true)
    by reflexivity.
  assert (Sub : incl [ "eu-west-1"; "us-east-1" ]
                  [ "us-east-1"; "ap-south-1"; "eu-west-1" ]).
  { intros r [<-|[<-|[]]]; simpl; auto. }
  split; [split; assumption|].
  exact (enabling_more_regions_keeps_validity
           {| p_homeRegion := "eu-west-1" |}
           (sample_values "eu-west-1" [ "eu-west-1"; "us-east-1" ] 90)
           [ "us-east-1"; "ap-south-1"; "eu-west-1" ] A Sub).
Defined.

(** X4. The constructor throws nothing but one of two errors, each
    announcing a single issue: the one that wants us-gov-west-1 as home
    region, or the one that wants us-east-1 among the enabled regions.
    Without parsed values it does not throw at all. *)
Theorem constructor_throws_one_of_two_errors (props : Props)
  (values : option GlobalConfigValues) (e : exn) :
  new_GlobalConfig props values = Throw e ->
  values <> None
  /\ (e = JsError
           "global-config.yaml has 1 issues: The region us-gov-west-1 must be the home region."
      \/ e = JsError
              "global-config.yaml has 1 issues: The region us-east-1 must be included in the list of enabled regions").
Proof.
  intro H. apply new_GlobalConfig_Throw_iff in H. destruct H as [NE ->].
  split.
  - intros ->. apply NE. reflexivity.
  - destruct (semantic_errors_cases values) as [S|[S|S]]; rewrite S in *.
    + now elim NE.
    + left. reflexivity.
    + right. reflexivity.
Qed.

Lemma constructor_throws_one_of_two_errors_witness :
  new_GlobalConfig {| p_homeRegion := "us-gov-east-1" |}
    (Some (sample_values "us-gov-east-1" [ "us-gov-east-1" ] 365))
  = Throw (JsError (issues_message [ GOV_HOME_REGION_ERROR ]))
  /\ Some (sample_values "us-gov-east-1" [ "us-gov-east-1" ] 365) <> None.
Proof.
  assert (T : new_GlobalConfig {| p_homeRegion := "us-gov-east-1" |}
                (Some (sample_values "us-gov-east-1"
                         [ "us-gov-east-1" ] 365))
              = Throw (JsError (issues_message [ GOV_HOME_REGION_ERROR ])))
    by reflexivity.
  split; [exact T|].
  exact (proj1 (constructor_throws_one_of_two_errors _ _ _ T)).
Defined.

(* ===================================================================== *)
(** * Further properties of the loaders *)
(* ===================================================================== *)

(** The object the constructor builds from parsed values, field by
    field. *)
Lemma overlay_record (props : Props) (values : GlobalConfigValues) :
  assign_regions (Object_assign field_initialisers values) props
  = {| homeRegion := p_homeRegion props;
       enabledRegions := [ p_homeRegion props ];
       managementAccountAccessRole := v_managementAccountAccessRole values;
       cloudwatchLogRetentionInDays := v_cloudwatchLogRetentionInDays values;
       controlTower := v_controlTower values;
       logging := v_logging values;
       dataProtection := v_dataProtection values;
       reports := v_reports values |}.
Proof.
  unfold assign_regions, Object_assign; simpl.
  destruct (v_dataProtection values), (v_reports values); reflexivity.
Qed.

Lemma new_GlobalConfig_Ok_iff (props : Props)
  (values : option GlobalConfigValues) (config : GlobalConfig) :
  new_GlobalConfig props values = Ok config <->
  semantic_errors values = []
  /\ config
     = assign_regions
         (match values with
          | Some v => Object_assign field_initialisers v
          | None => field_initialisers
          end) props.
Proof.
  split.
  - intro H. destruct (semantic_errors values) as [|x rest] eqn:S.
    + rewrite new_GlobalConfig_clean in H by exact S.
      injection H as <-. split; reflexivity.
    + rewrite new_GlobalConfig_rejects in H by (rewrite S; discriminate).
      discriminate.
  - intros [S ->]. apply new_GlobalConfig_clean. exact S.
Qed.

Section MoreLoaderProperties.

Variable Generic : Type.
Variable io : Imports Generic.

(** X5. [load] returns an object exactly when the file is read, the
    text deserialises, the tree parses and the parsed values break no
    cross-field rule; the object then has the parsed home region, that
    region alone as enabled regions, and every other field as parsed. *)
Theorem load_succeeds_iff (dir : string) (config : GlobalConfig) :
  load io dir = Ok config <->
  exists buffer tree values,
    readFileSync io (path_join io dir "global-config.yaml") = Ok buffer
    /\ yaml_load io buffer = Ok tree
    /\ t_parse io tree = Ok values
    /\ semantic_errors (Some values) = []
    /\ config
       = {| homeRegion := v_homeRegion values;
            enabledRegions := [ v_homeRegion values ];
            managementAccountAccessRole :=
              v_managementAccountAccessRole values;
            cloudwatchLogRetentionInDays :=
              v_cloudwatchLogRetentionInDays values;
            controlTower := v_controlTower values;
            logging := v_logging values;
            dataProtection := v_dataProtection values;
            reports := v_reports values |}.
Proof.
  split.
  - intro H.
    destruct (load_Ok_inv Generic io dir config H)
      as (buffer & tree & values & R & Y & P & N).
    apply new_GlobalConfig_Ok_iff in N. destruct N as [S ->].
    exists buffer, tree, values.
    repeat (split; [assumption|]).
    apply (overlay_record {| p_homeRegion := v_homeRegion values |} values).
  - intros (buffer & tree & values & R & Y & P & S & ->).
    unfold load, bind. change FILENAME with "global-config.yaml".
    rewrite R, Y, P.
    rewrite <- (overlay_record {| p_homeRegion := v_homeRegion values |}).
    apply new_GlobalConfig_clean. exact S.
Qed.

(** X6. Whatever [load] accepts, [loadFromString] accepts: if [load]
    returns an object for a directory, then [loadFromString] on the
    text of that directory's file returns an object too, logging
    nothing, with the same home region and enabled regions. *)
Theorem load_success_implies_loadFromString_success (dir content : string)
  (config : GlobalConfig) :
  readFileSync io (path_join io dir FILENAME) = Ok content ->
  load io dir = Ok config ->
  exists config',
    loadFromString io content = (Some config', [])
    /\ homeRegion config' = homeRegion config
    /\ enabledRegions config' = enabledRegions config.
Proof.
  intros R H.
  destruct (load_Ok_inv Generic io dir config H)
    as (buffer & tree & values & R' & Y & P & N).
  rewrite R in R'. injection R' as <-.
  apply new_GlobalConfig_Ok_iff in N. destruct N as [_ ->].
  exists (assign_regions field_initialisers (as_props values)).
  unfold loadFromString.
  rewrite (loadFromString_try_parsed Generic io content tree values Y P).
  repeat split.
Qed.

(** X7. On a document both loaders accept, they return the same object
    exactly when the document gives every field other than the two
    region fields its default value: the default access role, 365 days
    of retention, the default Control Tower and logging sections, and
    neither data protection nor reports. *)
Theorem loaders_agree_iff_defaults (dir content : string) (tree : Generic)
  (values : GlobalConfigValues) (fromFile fromString : GlobalConfig) :
  readFileSync io (path_join io dir FILENAME) = Ok content ->
  yaml_load io content = Ok tree ->
  t_parse io tree = Ok values ->
  load io dir = Ok fromFile ->
  fst (loadFromString io content) = Some fromString ->
  (fromFile = fromString <->
   v_managementAccountAccessRole values = "AWSControlTowerExecution"
   /\ v_cloudwatchLogRetentionInDays values = 365%Z
   /\ v_controlTower values = new_ControlTowerConfig
   /\ v_logging values = new_LoggingConfig
   /\ v_dataProtection values = None
   /\ v_reports values = None).
Proof.
  intros R Y P L S.
  unfold load, bind in L. rewrite R, Y, P in L.
  apply new_GlobalConfig_Ok_iff in L. destruct L as [_ ->].
  unfold loadFromString in S.
  rewrite (loadFromString_try_parsed Generic io content tree values Y P) in S.
  simpl in S. injection S as <-.
  rewrite overlay_record. unfold assign_regions, as_props; simpl.
  split.
  - intro E. injection E as -> -> -> -> -> ->. repeat split.
  - intros (-> & -> & -> & -> & -> & ->). reflexivity.
Qed.

End MoreLoaderProperties.

Lemma load_success_implies_loadFromString_success_witness :
  (readFileSync sample_imports (path_join sample_imports "us" FILENAME)
   = Ok us_document
   /\ is_ok (load sample_imports "us") = true)
  /\ exists config,
       loadFromString sample_imports us_document = (Some config, [])
       /\ homeRegion config = "us-east-1".
Proof.
  assert (R : readFileSync sample_imports
                (path_join sample_imports "us" FILENAME) = Ok us_document)
    by reflexivity.
  assert (L : load sample_imports "us"
              = Ok (assign_regions
                      (Object_assign field_initialisers
                         (sample_values "us-east-1" [ "us-east-1" ] 90))
                      {| p_homeRegion := "us-east-1" |}))
    by reflexivity.
  split; [split; [exact R | rewrite L; reflexivity]|].
  destruct (load_success_implies_loadFromString_success SampleTree
              sample_imports "us" us_document _ R L)
    as (config & S & H & _).
  exists config. split; [exact S | exact H].
Defined.

Lemma loaders_agree_iff_defaults_witness :
  exists fromFile fromString,
    load sample_imports "us" = Ok fromFile
    /\ fst (loadFromString sample_imports us_document) = Some fromString
    /\ fromFile <> fromString.
Proof.
  assert (R : readFileSync sample_imports
                (path_join sample_imports "us" FILENAME) = Ok us_document)
    by reflexivity.
  assert (Y : yaml_load sample_imports us_document = Ok UsTree)
    by reflexivity.
  assert (P : t_parse sample_imports UsTree
              = Ok (sample_values "us-east-1" [ "us-east-1" ] 90))
    by reflexivity.
  eexists. eexists.
  split; [reflexivity|]. split; [reflexivity|].
  intro E.
  apply (loaders_agree_iff_defaults SampleTree sample_imports
           "us" us_document UsTree
           (sample_values "us-east-1" [ "us-east-1" ] 90) _ _
           R Y P eq_refl eq_refl) in E.
  destruct E as (_ & Retention & _). discriminate Retention.
Defined.

(* ===================================================================== *)
(** * Further properties of the schemas *)
(* ===================================================================== *)

(** In the properties of this part the descriptors are read as
    [validate] reads them (the descriptor library itself is outside
    the analysed source); the schemas, the classes and the constructor
    are those of the source. *)

(** The root schema checks its eight fields one after the other, each
    under its own key. *)
Lemma validate_globalConfig_fields (regions : list Region)
  (entries : list (string * Value)) :
  validate regions GlobalConfigTypes.globalConfig [] (Some (VMap entries))
  = (validate regions TNonEmptyString [ "homeRegion" ]
       (lookup "homeRegion" entries)
     ++ validate regions (TArray TRegion) [ "enabledRegions" ]
          (lookup "enabledRegions" entries)
     ++ validate regions TNonEmptyString [ "managementAccountAccessRole" ]
          (lookup "managementAccountAccessRole" entries)
     ++ validate regions TNumber [ "cloudwatchLogRetentionInDays" ]
          (lookup "cloudwatchLogRetentionInDays" entries)
     ++ validate regions GlobalConfigTypes.controlTowerConfig
          [ "controlTower" ] (lookup "controlTower" entries)
     ++ validate regions GlobalConfigTypes.loggingConfig [ "logging" ]
          (lookup "logging" entries)
     ++ validate regions (TOptional GlobalConfigTypes.dataProtectionConfig)
          [ "dataProtection" ] (lookup "dataProtection" entries)
     ++ validate regions (TOptional GlobalConfigTypes.reportConfig)
          [ "reports" ] (lookup "reports" entries)
     ++ [])%list.
Proof. reflexivity. Qed.

(** The two region fields of a constructed object against the schema. *)
Lemma validate_region_fields (regions : list Region) (home : string) :
  (validate regions TNonEmptyString [ "homeRegion" ] (Some (VStr home))
   ++ validate regions (TArray TRegion) [ "enabledRegions" ]
        (Some (VStrings [ home ])) ++ [])%list = []
  <-> home <> "" /\ In home regions.
Proof.
  cbn. destruct (String.eqb_spec home "") as [E|NE].
  - split; [discriminate | intros [N _]; now elim N].
  - destruct (includes regions home) eqn:I; cbn.
    + apply includes_In in I. split; [now split | reflexivity].
    + apply includes_not_In in I.
      split; [discriminate | intros [_ M]; now elim I].
Qed.

(** X8. Take parsed values that pass the root schema and construct an
    object from them. The object passes the root schema again exactly
    when the home region given in [props] is a non-empty string of the
    supported region set: the schema wants the home region only to be
    non-empty, but the constructor also stores it as the one enabled
    region, and enabled regions must be supported regions. *)
Theorem constructed_object_schema_valid_iff (regions : list Region)
  (props : Props) (values : GlobalConfigValues) (config : GlobalConfig) :
  validate regions GlobalConfigTypes.globalConfig []
    (Some (Value_of_GlobalConfigValues values)) = [] ->
  new_GlobalConfig props (Some values) = Ok config ->
  (validate regions GlobalConfigTypes.globalConfig []
     (Some (Value_of_GlobalConfig config)) = []
   <-> p_homeRegion props <> "" /\ In (p_homeRegion props) regions).
Proof.
  intros V N.
  apply new_GlobalConfig_Ok_iff in N. destruct N as [_ ->].
  rewrite overlay_record.
  rewrite <- validate_region_fields.
  unfold Value_of_GlobalConfig, Value_of_GlobalConfigValues in *.
  rewrite validate_globalConfig_fields in *.
  cbn [homeRegion enabledRegions managementAccountAccessRole
       cloudwatchLogRetentionInDays controlTower logging dataProtection
       reports] in *.
  destruct (v_dataProtection values), (v_reports values);
    cbn [optional_entry app lookup String.eqb Ascii.eqb Bool.eqb] in *;
    apply app_eq_nil in V; destruct V as [_ V];
    apply app_eq_nil in V; destruct V as [_ V];
    rewrite V; reflexivity.
Qed.

Lemma constructed_object_schema_valid_iff_witness :
  (validate [ "us-east-1"; "us-west-2"; "eu-west-1" ]
     GlobalConfigTypes.globalConfig []
     (Some (Value_of_GlobalConfigValues terse_values)) = []
   /\ is_ok (new_GlobalConfig {| p_homeRegion := "eu-west-1" |}
               (Some terse_values)) = true)
  /\ exists config,
       new_GlobalConfig {| p_homeRegion := "eu-west-1" |} (Some terse_values)
       = Ok config
       /\ validate [ "us-east-1"; "us-west-2"; "eu-west-1" ]
            GlobalConfigTypes.globalConfig []
            (Some (Value_of_GlobalConfig config)) = [].
Proof.
  assert (V : validate [ "us-east-1"; "us-west-2"; "eu-west-1" ]
                GlobalConfigTypes.globalConfig []
                (Some (Value_of_GlobalConfigValues terse_values)) = [])
    by reflexivity.
  assert (N : new_GlobalConfig {| p_homeRegion := "eu-west-1" |}
                (Some terse_values)
              = Ok (assign_regions
                      (Object_assign field_initialisers terse_values)
                      {| p_homeRegion := "eu-west-1" |})) by reflexivity.
  split; [split; [exact V | rewrite N; reflexivity]|].
  eexists. split; [exact N|].
  apply (constructed_object_schema_valid_iff _ _ _ _ V N).
  split; [discriminate | right; right; left; reflexivity].
Defined.

(** X9. The defaults of the section classes against their own schemas,
    whatever the set of supported regions. Those of
    [ControlTowerConfig], [CloudtrailConfig], [SessionManagerConfig],
    [LoggingConfig] and [DataProtectionConfig] conform. Those of
    [ReportConfig] do not: the empty strings its two sections are
    initialised with are no non-empty strings and no member of any
    enumeration, which violates sixteen positions, seven in the cost
    and usage report and nine in the budgets. *)
Theorem section_defaults_against_schemas (regions : list Region) :
  validate regions GlobalConfigTypes.controlTowerConfig []
    (Some (Value_of_ControlTowerConfig new_ControlTowerConfig)) = []
  /\ validate regions GlobalConfigTypes.cloudtrailConfig []
       (Some (Value_of_CloudtrailConfig new_CloudtrailConfig)) = []
  /\ validate regions GlobalConfigTypes.sessionManagerConfig []
       (Some (Value_of_SessionManagerConfig new_SessionManagerConfig)) = []
  /\ validate regions GlobalConfigTypes.loggingConfig []
       (Some (Value_of_LoggingConfig new_LoggingConfig)) = []
  /\ validate regions GlobalConfigTypes.dataProtectionConfig []
       (Some (Value_of_DataProtectionConfig new_DataProtectionConfig)) = []
  /\ map viol_path
       (validate regions GlobalConfigTypes.reportConfig []
          (Some (Value_of_ReportConfig new_ReportConfig)))
     = [ [ "costAndUsageReport"; "additionalSchemaElements"; "0" ];
         [ "costAndUsageReport"; "compression" ];
         [ "costAndUsageReport"; "format" ];
         [ "costAndUsageReport"; "reportName" ];
         [ "costAndUsageReport"; "s3Prefix" ];
         [ "costAndUsageReport"; "timeUnit" ];
         [ "costAndUsageReport"; "reportVersioning" ];
         [ "budgets"; "budgetName" ];
         [ "budgets"; "budgetType" ];
         [ "budgets"; "timeUnit" ];
         [ "budgets"; "address" ];
         [ "budgets"; "notifications"; "0"; "notificationType" ];
         [ "budgets"; "notifications"; "0"; "thresholdType" ];
         [ "budgets"; "notifications"; "0"; "comparisonOperator" ];
         [ "budgets"; "subscriptionType" ];
         [ "budgets"; "unit" ] ].
Proof. repeat split. Qed.

(** A list of regions that passes [t.array(t.region)] is a list of
    strings of the supported set. *)
Lemma validate_region_array (regions : list Region) (path : list string)
  (items : list Value) :
  validate regions (TArray TRegion) path (Some (VList items)) = [] ->
  exists enabled,
    items = map VStr enabled /\ Forall (fun r => In r regions) enabled.
Proof.
  cbn [validate]. unfold indexed. generalize 0%nat.
  induction items as [|item items IH]; intros start H.
  - exists []. split; [reflexivity | constructor].
  - cbn in H. apply app_eq_nil in H. destruct H as [Hitem Hrest].
    destruct item; try discriminate Hitem.
    destruct (includes regions s) eqn:I; [|discriminate Hitem].
    destruct (IH (S start) Hrest) as (enabled & -> & F).
    exists (s :: enabled). split; [reflexivity|].
    constructor; [apply includes_In, I | exact F].
Qed.

(** X10. Every document the root schema accepts has the fields the
    constructor's validation reads, with the types it relies on: a
    home region that is a non-empty string, enabled regions that form a
    list of strings of the supported region set, and a log retention
    that is a number. So the guard of the validation block holds for
    whatever the structural parse lets through. *)
Theorem accepted_document_has_validated_fields (regions : list Region)
  (entries : list (string * Value)) :
  validate regions GlobalConfigTypes.globalConfig [] (Some (VMap entries))
  = [] ->
  exists home enabled retention,
    lookup "homeRegion" entries = Some (VStr home)
    /\ home <> ""
    /\ lookup "enabledRegions" entries = Some (VStrings enabled)
    /\ Forall (fun r => In r regions) enabled
    /\ lookup "cloudwatchLogRetentionInDays" entries = Some (VNum retention).
Proof.
  intro V. rewrite validate_globalConfig_fields in V.
  apply app_eq_nil in V. destruct V as [Home V].
  apply app_eq_nil in V. destruct V as [Enabled V].
  apply app_eq_nil in V. destruct V as [_ V].
  apply app_eq_nil in V. destruct V as [Retention _].
  destruct (lookup "homeRegion" entries) as [[| | |home| |]|];
    try discriminate Home.
  cbn in Home. destruct (String.eqb_spec home "") as [|NE];
    [discriminate Home|].
  destruct (lookup "enabledRegions" entries) as [[| | | |items|]|];
    try discriminate Enabled.
  destruct (validate_region_array regions _ items Enabled)
    as (enabled & -> & F).
  destruct (lookup "cloudwatchLogRetentionInDays" entries)
    as [[| |retention| | |]|]; try discriminate Retention.
  exists home, enabled, retention. repeat split; assumption.
Qed.

Lemma accepted_document_has_validated_fields_witness :
  validate [ "us-east-1"; "us-west-2" ] GlobalConfigTypes.globalConfig []
    (Some (VMap shuffled_document)) = []
  /\ exists home enabled retention,
       lookup "homeRegion" shuffled_document = Some (VStr home)
       /\ home <> ""
       /\ Forall (fun r => In r [ "us-east-1"; "us-west-2" ]) enabled
       /\ retention = 30%Z.
Proof.
  assert (V : validate [ "us-east-1"; "us-west-2" ]
                GlobalConfigTypes.globalConfig []
                (Some (VMap shuffled_document)) = []) by reflexivity.
  split; [exact V|].
  destruct (accepted_document_has_validated_fields _ _ V)
    as (home & enabled & retention & H & NE & _ & F & R).
  exists home, enabled, retention.
  repeat split; try assumption.
  cbn in R. injection R as <-. reflexivity.
Defined.

(* ===================================================================== *)
(** * What [load] lets through *)
(* ===================================================================== *)

(** The parsed values on which the validation block finds nothing. *)
Lemma semantic_errors_nil_iff (v : GlobalConfigValues) :
  semantic_errors (Some v) = [] <->
  v_homeRegion v = "us-gov-west-1"
  \/ (v_homeRegion v <> "us-gov-east-1"
      /\ (v_homeRegion v = "us-east-1"
          \/ In "us-east-1" (v_enabledRegions v))).
Proof.
  unfold semantic_errors; simpl.
  destruct (String.eqb_spec (v_homeRegion v) "us-gov-west-1") as [W|W];
    simpl.
  - split; [now left | reflexivity].
  - destruct (String.eqb_spec (v_homeRegion v) "us-gov-east-1") as [E|E];
      simpl.
    + split; [discriminate|].
      intros [G|[N _]]; [now elim W | now elim N].
    + destruct (String.eqb_spec (v_homeRegion v) "us-east-1") as [U|U];
        simpl.
      * split; [intros _; right; split; [exact E | now left] | reflexivity].
      * destruct (includes (v_enabledRegions v) "us-east-1") eqn:I; simpl.
        -- apply includes_In in I.
           split; [intros _; right; split; [exact E | now right]
                  | reflexivity].
        -- apply includes_not_In in I.
           split; [discriminate|].
           intros [G|[_ [H|H]]];
             [now elim W | now elim U | now elim I].
Qed.

(** X11. An object returned by [load] is never homed in us-gov-east-1.
    Its home region is us-gov-west-1, or us-east-1, or a region of a
    document that also enabled us-east-1. *)
Theorem load_home_regions (Generic : Type) (io : Imports Generic)
  (dir : string) (config : GlobalConfig) :
  load io dir = Ok config ->
  homeRegion config <> "us-gov-east-1"
  /\ (homeRegion config = "us-gov-west-1"
      \/ homeRegion config = "us-east-1"
      \/ exists buffer tree values,
           readFileSync io (path_join io dir FILENAME) = Ok buffer
           /\ yaml_load io buffer = Ok tree
           /\ t_parse io tree = Ok values
           /\ homeRegion config = v_homeRegion values
           /\ In "us-east-1" (v_enabledRegions values)).
Proof.
  intro H.
  destruct (load_Ok_inv Generic io dir config H)
    as (buffer & tree & values & R & Y & P & N).
  apply new_GlobalConfig_Ok_iff in N. destruct N as [S ->].
  rewrite overlay_record. cbn [homeRegion p_homeRegion].
  apply semantic_errors_nil_iff in S.
  destruct S as [W|[E [U|I]]].
  - split; [rewrite W; discriminate | now left].
  - split; [exact E | now right; left].
  - split; [exact E|]. right. right.
    exists buffer, tree, values. now repeat split.
Qed.

Lemma load_home_regions_witness :
  is_ok (load sample_imports "us") = true
  /\ exists config,
       load sample_imports "us" = Ok config
       /\ homeRegion config <> "us-gov-east-1".
Proof.
  assert (L : load sample_imports "us"
              = Ok (assign_regions
                      (Object_assign field_initialisers
                         (sample_values "us-east-1" [ "us-east-1" ] 90))
                      {| p_homeRegion := "us-east-1" |}))
    by reflexivity.
  split; [rewrite L; reflexivity|].
  eexists. split; [exact L|].
  exact (proj1 (load_home_regions SampleTree sample_imports "us" _ L)).
Defined.
